(** * Portfolio builder: the draft-edit-and-save workflow

    A shallow embedding of the edit page ([EditPortfolioPage]), of the
    upload widget ([FileUploadBox]) and of the Zustand store
    ([usePortfolioStore]), followed by the properties of the workflow.

    React state is modelled by explicit state passing: every [useState]
    cell is a record field, every handler is a function from the state it
    closes over to the state after its setters have run, together with the
    list of effects it performed (alerts, timers, store writes).  Awaited
    promises are calls to an environment that either return or throw; a
    save that reaches an [await] is kept in flight with what its handler
    closed over, and settles at a later event, so that other handlers run
    in between. *)

From stdpp Require Import base gmap strings list pretty.

Open Scope Z_scope.

(** ** JavaScript strings *)

Module JS.

(** A string is its sequence of UTF-16 code units. *)
Definition jsstring := list N.

(** The string written by an ASCII literal of the source. *)
Definition lit (s : string) : jsstring :=
  Ascii.N_of_ascii <$> String.list_ascii_of_string s.

(** WhiteSpace and LineTerminator code points of ECMAScript, the
    characters [String.prototype.trim] strips.  All of them lie in the
    basic plane, so a code unit decides. *)
Definition is_white_space (c : N) : bool :=
  ((c =? 0x0009) || (c =? 0x000A) || (c =? 0x000B) || (c =? 0x000C)
   || (c =? 0x000D) || (c =? 0x0020) || (c =? 0x00A0) || (c =? 0x1680)
   || ((0x2000 <=? c) && (c <=? 0x200A))
   || (c =? 0x2028) || (c =? 0x2029) || (c =? 0x202F) || (c =? 0x205F)
   || (c =? 0x3000) || (c =? 0xFEFF))%N.

Fixpoint trimStart (s : jsstring) : jsstring :=
  match s with
  | [] => []
  | c :: s' => if is_white_space c then trimStart s' else s
  end.

Definition trimEnd (s : jsstring) : jsstring :=
  reverse (trimStart (reverse s)).

(** [s.trim()] *)
Definition trim (s : jsstring) : jsstring := trimEnd (trimStart s).

(** ToBoolean on a string: only the empty string is falsy. *)
Definition truthy (s : jsstring) : bool :=
  match s with [] => false | _ :: _ => true end.

(** ToBoolean on [string | null]. *)
Definition truthy_opt (o : option jsstring) : bool :=
  match o with None => false | Some s => truthy s end.

(** [a.includes(x)] on an array of strings. *)
Definition includes (a : list jsstring) (x : jsstring) : bool :=
  bool_decide (x ∈ a).

End JS.

Import JS.

(** ** types/portfolio.ts *)

Record ProfileData := mkProfileData {
  name : jsstring;
  title : jsstring;
  description : jsstring
}.

Record PortfolioItem := mkPortfolioItem {
  id : Z;
  position : jsstring;
  company : jsstring;
  startDate : jsstring;
  endDate : jsstring;
  item_description : jsstring
}.

(** [FormErrors]: an object used as a map from field key to message. *)
Abbreviation FormErrors := (gmap string string).

(** The [name] attribute of a profile input and of an item input; the
    forms only ever render these. *)
Inductive ProfileField := f_name | f_title | f_description.

Inductive ItemField :=
  f_position | f_company | f_startDate | f_endDate | f_item_description.

(** [{ ...prev, [name]: value }] *)
Definition setProfileField (fld : ProfileField) (v : jsstring)
    (p : ProfileData) : ProfileData :=
  match fld with
  | f_name => mkProfileData v (title p) (description p)
  | f_title => mkProfileData (name p) v (description p)
  | f_description => mkProfileData (name p) (title p) v
  end.

(** [{ ...item, [name]: value }] *)
Definition setItemField (fld : ItemField) (v : jsstring)
    (i : PortfolioItem) : PortfolioItem :=
  match fld with
  | f_position =>
      mkPortfolioItem (id i) v (company i) (startDate i) (endDate i)
        (item_description i)
  | f_company =>
      mkPortfolioItem (id i) (position i) v (startDate i) (endDate i)
        (item_description i)
  | f_startDate =>
      mkPortfolioItem (id i) (position i) (company i) v (endDate i)
        (item_description i)
  | f_endDate =>
      mkPortfolioItem (id i) (position i) (company i) (startDate i) v
        (item_description i)
  | f_item_description =>
      mkPortfolioItem (id i) (position i) (company i) (startDate i)
        (endDate i) v
  end.

Definition getItemField (fld : ItemField) (i : PortfolioItem) : jsstring :=
  match fld with
  | f_position => position i
  | f_company => company i
  | f_startDate => startDate i
  | f_endDate => endDate i
  | f_item_description => item_description i
  end.

(** ** The two image slots *)

Inductive SlotId := slot_background | slot_profile.

Global Instance SlotId_eq_dec : EqDecision SlotId.
Proof. solve_decision. Defined.

(** An object [{ background: A; profile: A }]. *)
Record Slots (A : Type) := mkSlots { s_background : A; s_profile : A }.
Arguments mkSlots {A} _ _.
Arguments s_background {A} _.
Arguments s_profile {A} _.

Definition slot {A} (k : SlotId) (o : Slots A) : A :=
  match k with
  | slot_background => s_background o
  | slot_profile => s_profile o
  end.

(** [{ ...prev, [id]: v }] *)
Definition setSlot {A} (k : SlotId) (v : A) (o : Slots A) : Slots A :=
  match k with
  | slot_background => mkSlots v (s_profile o)
  | slot_profile => mkSlots (s_background o) v
  end.

(** ** context/portfolioStore.ts *)

Module Store.

Record PortfolioState := mkPortfolioState {
  profile : ProfileData;
  portfolios : list PortfolioItem;
  images : Slots (option jsstring)
}.

(** [Partial<PortfolioState>] *)
Record PartialState := mkPartial {
  p_profile : option ProfileData;
  p_portfolios : option (list PortfolioItem);
  p_images : option (Slots (option jsstring))
}.

Definition placeholderData : PortfolioState := {|
  profile := {|
    name := lit "John Doe";
    title := lit "Senior Frontend Developer";
    description := lit "This is placeholder data. Edit the portfolio to add your own professional summary here. Talk about your passion for creating beautiful, user-friendly web applications."
  |};
  portfolios := [
    {| id := 1;
       position := lit "Example Position";
       company := lit "Tech Company";
       startDate := lit "2023-01";
       endDate := lit "2025-01";
       item_description := lit "This is a sample portfolio entry. Describe your responsibilities, achievements, and the technologies you used." |}
  ];
  images := mkSlots None None
|}.

(** [set((state) => ({ ...state, ...data }))] *)
Definition setPortfolioData (data : PartialState) (state : PortfolioState)
    : PortfolioState := {|
  profile := default (profile state) (p_profile data);
  portfolios := default (portfolios state) (p_portfolios data);
  images := default (images state) (p_images data)
|}.

(** What [get(key)] of the persistent store returns: the record under
    the key, or nothing on a fresh install. *)
Definition hydrate (persisted : option PortfolioState) : PortfolioState :=
  default placeholderData persisted.

End Store.

(** ** The environment of the page

    Browser objects and the awaited library calls.  A [File] is known by
    its size in bytes, its MIME type and its bytes. *)

Record File := mkFile {
  file_size : N;
  file_type : jsstring;
  file_bytes : list N
}.

(** The outcome of a call that may throw, or of an awaited promise that
    may reject. *)
Inductive result (A : Type) := Ok (a : A) | Throw.
Arguments Ok {A} _.
Arguments Throw {A}.

Definition bind {A B} (r : result A) (k : A -> result B) : result B :=
  match r with Ok a => k a | Throw => Throw end.

Notation "x <- r ;; k" := (bind r (fun x => k))
  (at level 100, r at next level, right associativity).

Record CompressionOptions := mkOptions {
  maxSizeMB : N;
  maxWidthOrHeight : N;
  useWebWorker : bool
}.

Record Env := mkEnv {
  (** [imageCompression(file, options)] of browser-image-compression *)
  imageCompression : File -> CompressionOptions -> result File;
  (** [reader.readAsDataURL(file)]: on load, what follows the scheme
      [data:] in [reader.result]; the read may fail instead *)
  readAsDataURL : File -> result jsstring;
  (** [URL.createObjectURL(file)] *)
  createObjectURL : File -> jsstring
}.

(** [fileToDataUrl(file)]: resolves with [reader.result], a data URL,
    and rejects when the reader's [onerror] fires. *)
Definition fileToDataUrl (env : Env) (file : File) : result jsstring :=
  rest <- readAsDataURL env file ;; Ok (lit "data:" ++ rest).

(** The callbacks handed to [setTimeout]. *)
Inductive Timer := HideError (k : SlotId) | HideNotification | PushHome.

(** What a handler does besides setting state. *)
Inductive Effect :=
| Alert (msg : string)
| ConsoleError (msg : string)
| SetTimeout (cb : Timer) (ms : N)
| RevokeObjectURL (url : jsstring)
| StoreSet (data : Store.PartialState).

(** [{ show: boolean; message: string }], the state of a toast. *)
Record Toast := mkToast { show : bool; message : string }.

(** ** components/ui/FileUploadBox *)

Module FileUploadBox.

Record State := mkState {
  previewUrl : option jsstring;
  error : Toast
}.

(** [initialImageUrl || null] *)
Definition orNull (initialImageUrl : option jsstring) : option jsstring :=
  if truthy_opt initialImageUrl then initialImageUrl else None.

Definition init (initialImageUrl : option jsstring) : State :=
  {| previewUrl := orNull initialImageUrl;
     error := mkToast false "" |}.

(** The effect on [initialImageUrl]: it runs when the prop changes. *)
Definition syncInitial (old cur : option jsstring) (st : State) : State :=
  if decide (old = cur) then st
  else {| previewUrl := orNull cur; error := error st |}.

Definition triggerError (k : SlotId) (msg : string) (st : State)
    : State * list Effect :=
  ({| previewUrl := previewUrl st; error := mkToast true msg |},
   [SetTimeout (HideError k) 3000]).

(** The timer of [triggerError] firing. *)
Definition hideError (st : State) : State :=
  {| previewUrl := previewUrl st; error := mkToast false "" |}.

Definition allowedTypes : list jsstring :=
  [lit "image/png"; lit "image/jpeg"; lit "image/jpg"].

Section Handlers.
(** The parent's state and the [onFileChange] prop. *)
Context {P : Type} (onFileChange : SlotId -> option File -> P -> P).
Context (env : Env) (k : SlotId).

Definition handleFile (selectedFile : File) (st : State) (parent : P)
    : State * P * list Effect :=
  if (3 * 1024 * 1024 <? file_size selectedFile)%N then
    let '(st', eff) :=
      triggerError k "File size must be less than 3MB." st in
    (st', parent, eff)
  else if negb (includes allowedTypes (file_type selectedFile)) then
    let '(st', eff) :=
      triggerError k "Invalid file type. Please use PNG, JPG, or JPEG." st in
    (st', parent, eff)
  else
    ({| previewUrl := Some (createObjectURL env selectedFile);
        error := error st |},
     onFileChange k (Some selectedFile) parent,
     []).

Definition removeImage (st : State) (parent : P)
    : State * P * list Effect :=
  let eff :=
    match previewUrl st with
    | Some url =>
        if truthy url && bool_decide (lit "blob:" `prefix_of` url)
        then [RevokeObjectURL url] else []
    | None => []
    end in
  ({| previewUrl := None; error := error st |},
   onFileChange k None parent,
   eff).

End Handlers.

End FileUploadBox.

(** ** The edit page: state *)

Inductive ImageStatus := initial | new | removed.

Global Instance ImageStatus_eq_dec : EqDecision ImageStatus.
Proof. solve_decision. Defined.

(** The [useState] cells of [EditPortfolioPage] that the workflow reads
    or writes (the preview modal has cells of its own and touches none of
    these). *)
Record PageState := mkPage {
  profile : ProfileData;
  portfolioItems : list PortfolioItem;
  files : Slots (option File);
  imageStatus : Slots ImageStatus;
  errors : FormErrors;
  isFormValid : bool;
  notification : Toast;
  isSaving : bool
}.

Definition setProfile (f : ProfileData -> ProfileData) (st : PageState) :=
  mkPage (f (profile st)) (portfolioItems st) (files st) (imageStatus st)
    (errors st) (isFormValid st) (notification st) (isSaving st).

Definition setPortfolioItems
    (f : list PortfolioItem -> list PortfolioItem) (st : PageState) :=
  mkPage (profile st) (f (portfolioItems st)) (files st) (imageStatus st)
    (errors st) (isFormValid st) (notification st) (isSaving st).

Definition setFiles
    (f : Slots (option File) -> Slots (option File)) (st : PageState) :=
  mkPage (profile st) (portfolioItems st) (f (files st)) (imageStatus st)
    (errors st) (isFormValid st) (notification st) (isSaving st).

Definition setImageStatus
    (f : Slots ImageStatus -> Slots ImageStatus) (st : PageState) :=
  mkPage (profile st) (portfolioItems st) (files st) (f (imageStatus st))
    (errors st) (isFormValid st) (notification st) (isSaving st).

Definition setErrors (e : FormErrors) (st : PageState) :=
  mkPage (profile st) (portfolioItems st) (files st) (imageStatus st)
    e (isFormValid st) (notification st) (isSaving st).

Definition setIsFormValid (b : bool) (st : PageState) :=
  mkPage (profile st) (portfolioItems st) (files st) (imageStatus st)
    (errors st) b (notification st) (isSaving st).

Definition setNotification (n : Toast) (st : PageState) :=
  mkPage (profile st) (portfolioItems st) (files st) (imageStatus st)
    (errors st) (isFormValid st) n (isSaving st).

Definition setIsSaving (b : bool) (st : PageState) :=
  mkPage (profile st) (portfolioItems st) (files st) (imageStatus st)
    (errors st) (isFormValid st) (notification st) b.

(** The initial values handed to [useState], read from the store. *)
Definition initialImageStatus (image : option jsstring) : ImageStatus :=
  if truthy_opt image then initial else removed.

Definition initPage (store : Store.PortfolioState) : PageState := {|
  profile := Store.profile store;
  portfolioItems := Store.portfolios store;
  files := mkSlots None None;
  imageStatus :=
    mkSlots (initialImageStatus (s_background (Store.images store)))
            (initialImageStatus (s_profile (Store.images store)));
  errors := ∅;
  isFormValid := false;
  notification := mkToast false "";
  isSaving := false
|}.

(** ** The edit page: validation *)

(** [if (cond) newErrors[key] = msg] *)
Definition require (cond : bool) (key msg : string) (newErrors : FormErrors)
    : FormErrors :=
  if cond then <[key := msg]> newErrors else newErrors.

(** [!s.trim()] *)
Definition blank (s : jsstring) : bool := negb (truthy (trim s)).

(** [!s] *)
Definition empty (s : jsstring) : bool := negb (truthy s).

Definition profileErrors (p : ProfileData) (newErrors : FormErrors)
    : FormErrors :=
  let e1 := require (blank (name p)) "profile_name" "Name is required."
              newErrors in
  let e2 := require (blank (title p)) "profile_title" "Title is required."
              e1 in
  require (blank (description p)) "profile_description"
    "Description is required." e2.

(** The body of the [forEach] callback. *)
Definition itemErrors (newErrors : FormErrors) (item : PortfolioItem)
    : FormErrors :=
  let e1 := require (blank (position item))
              ("item_position_" +:+ pretty (id item))
              "Position is required." newErrors in
  let e2 := require (blank (company item))
              ("item_company_" +:+ pretty (id item))
              "Company is required." e1 in
  let e3 := require (empty (startDate item))
              ("item_startDate_" +:+ pretty (id item))
              "Start date is required." e2 in
  let e4 := require (empty (endDate item))
              ("item_endDate_" +:+ pretty (id item))
              "End date is required." e3 in
  require (blank (item_description item))
    ("item_description_" +:+ pretty (id item))
    "Description is required." e4.

Definition formErrors (p : ProfileData) (items : list PortfolioItem)
    : FormErrors :=
  foldl itemErrors (profileErrors p ∅) items.

Definition validateForm (st : PageState) : PageState :=
  let newErrors := formErrors (profile st) (portfolioItems st) in
  let st1 := setErrors newErrors st in
  let backgroundIsValid :=
    negb (bool_decide (s_background (imageStatus st) = removed)) in
  let profileIsValid :=
    negb (bool_decide (s_profile (imageStatus st) = removed)) in
  let filesValid := backgroundIsValid && profileIsValid in
  let fieldsValid := bool_decide (size newErrors = 0%nat) in
  setIsFormValid (filesValid && fieldsValid) st1.

(** Mounting the page: the first render, then the effect that runs
    [validateForm]. *)
Definition mountPage (store : Store.PortfolioState) : PageState :=
  validateForm (initPage store).

(** ** The edit page: handlers *)

Definition handleFileChange (k : SlotId) (file : option File)
    (st : PageState) : PageState :=
  let st1 := setFiles (setSlot k file) st in
  setImageStatus
    (setSlot k (match file with Some _ => new | None => removed end)) st1.

Definition handleProfileChange (fld : ProfileField) (value : jsstring)
    (st : PageState) : PageState :=
  setProfile (setProfileField fld value) st.

Definition handlePortfolioChange (i : Z) (fld : ItemField)
    (value : jsstring) (st : PageState) : PageState :=
  setPortfolioItems
    (fun prev =>
       (fun item =>
          if bool_decide (id item = i) then setItemField fld value item
          else item) <$> prev)
    st.

Definition blankItem (now : Z) : PortfolioItem :=
  {| id := now; position := []; company := []; startDate := [];
     endDate := []; item_description := [] |}.

(** [now] is what [Date.now()] returns at the call. *)
Definition addPortfolioItem (now : Z) (st : PageState)
    : PageState * list Effect :=
  if bool_decide (10 <= length (portfolioItems st))%nat then
    (st, [Alert "Maximum 10 portfolio entries allowed"])
  else
    (setPortfolioItems (fun prev => prev ++ [blankItem now]) st, []).

Definition removePortfolioItem (i : Z) (st : PageState) : PageState :=
  setPortfolioItems
    (fun prev => filter (fun item => id item ≠ i) prev) st.

Definition options : CompressionOptions :=
  {| maxSizeMB := 1; maxWidthOrHeight := 1920; useWebWorker := true |}.

(** [files.x ? await imageCompression(files.x, options) : null] *)
Definition compressed (env : Env) (file : option File)
    : result (option File) :=
  match file with
  | Some f => f' <- imageCompression env f options ;; Ok (Some f')
  | None => Ok None
  end.

(** [c ? await fileToDataUrl(c) : status === "initial" ? stored : null] *)
Definition toSave (env : Env) (c : option File) (status : ImageStatus)
    (stored : option jsstring) : result (option jsstring) :=
  match c with
  | Some f => url <- fileToDataUrl env f ;; Ok (Some url)
  | None => Ok (if bool_decide (status = initial) then stored else None)
  end.

(** The body of the [try] block up to the store call: the record handed
    to [store.setPortfolioData]. *)
Definition recordToSave (env : Env) (store : Store.PortfolioState)
    (st : PageState) : result Store.PartialState :=
  compressedBackgroundFile <- compressed env (s_background (files st)) ;;
  compressedProfileFile <- compressed env (s_profile (files st)) ;;
  backgroundToSave <-
    toSave env compressedBackgroundFile (s_background (imageStatus st))
      (s_background (Store.images store)) ;;
  profileToSave <-
    toSave env compressedProfileFile (s_profile (imageStatus st))
      (s_profile (Store.images store)) ;;
  Ok {| Store.p_profile := Some (profile st);
        Store.p_portfolios := Some (portfolioItems st);
        Store.p_images := Some (mkSlots backgroundToSave profileToSave) |}.

(** [saveChanges] run to its end with no other event handled on the
    way: the store and the page after it, and what it did.  The run of a
    call that is suspended at an [await] while other events are handled
    is [clickSave] followed, later, by [settle]. *)
Definition saveChanges (env : Env) (store : Store.PortfolioState)
    (st : PageState) : Store.PortfolioState * PageState * list Effect :=
  if negb (isFormValid st) then
    (store, st,
     [Alert "Please complete all required fields and upload both images."])
  else
    let st1 := setIsSaving true st in
    match recordToSave env store st with
    | Ok data =>
        (Store.setPortfolioData data store,
         setIsSaving false
           (setNotification (mkToast true "Portfolio Saved!") st1),
         [StoreSet data; SetTimeout HideNotification 2000])
    | Throw =>
        (store,
         setIsSaving false st1,
         [ConsoleError "Failed to save changes:";
          Alert "Could not save changes. Please try again."])
    end.

(** The two nested timers of a successful save. *)
Definition hideNotification (st : PageState) : PageState * list Effect :=
  (setNotification (mkToast false "") st, [SetTimeout PushHome 500]).

(** ** The page with its two upload boxes, next to the store *)

(** A call of [saveChanges] suspended at an [await]: the store and the
    page of the render whose handler it is, which are all it reads from
    then on, and whether that page is still mounted, so that its setters
    still take effect. *)
Record PendingSave := mkPending {
  closedStore : Store.PortfolioState;
  closedPage : PageState;
  mounted : bool
}.

Record App := mkApp {
  store : Store.PortfolioState;
  page : PageState;
  boxes : Slots FileUploadBox.State;
  pending : list PendingSave
}.

Definition mount (s : Store.PortfolioState) : App := {|
  store := s;
  page := mountPage s;
  boxes := mkSlots (FileUploadBox.init (s_background (Store.images s)))
                   (FileUploadBox.init (s_profile (Store.images s)));
  pending := []
|}.

(** Leaving the page and coming back to it: page and boxes are mounted
    afresh on the store; the saves in flight go on, cut off from the
    page that started them. *)
Definition remount (a : App) : App := {|
  store := store a;
  page := mountPage (store a);
  boxes :=
    mkSlots (FileUploadBox.init (s_background (Store.images (store a))))
            (FileUploadBox.init (s_profile (Store.images (store a))));
  pending :=
    (fun p => mkPending (closedStore p) (closedPage p) false) <$> pending a
|}.

(** Whether [saveChanges], past its guard, reaches an [await]: each of
    them sits behind a test on a pending file or on its compressed
    copy. *)
Definition awaits (st : PageState) : bool :=
  bool_decide (is_Some (s_background (files st))) ||
  bool_decide (is_Some (s_profile (files st))).

(** A click on Save.  When the guard refuses, or when no file is
    pending, [saveChanges] runs through in the turn of the click;
    otherwise it sets the saving flag and suspends. *)
Definition clickSave (env : Env) (a : App) : App * list Effect :=
  if isFormValid (page a) && awaits (page a) then
    (mkApp (store a) (setIsSaving true (page a)) (boxes a)
       (pending a ++ [mkPending (store a) (page a) true]),
     [])
  else
    let '(s, p, eff) := saveChanges env (store a) (page a) in
    (mkApp s p (boxes a) (pending a), eff).

(** The awaited calls of the [n]-th save in flight settle, and it runs
    to its end: the pipeline on what it closed over, the store call on the
    store as it is now, the setters on the page if it is still the one
    that started the save.  Between two awaits of one call nothing is
    read or set, so one suspension stands for all of them. *)
Definition settle (env : Env) (n : nat) (a : App) : App * list Effect :=
  match pending a !! n with
  | None => (a, [])
  | Some p =>
      match recordToSave env (closedStore p) (closedPage p) with
      | Ok data =>
          (mkApp (Store.setPortfolioData data (store a))
             (if mounted p
              then setIsSaving false
                     (setNotification (mkToast true "Portfolio Saved!")
                        (page a))
              else page a)
             (boxes a) (delete n (pending a)),
           [StoreSet data; SetTimeout HideNotification 2000])
      | Throw =>
          (mkApp (store a)
             (if mounted p then setIsSaving false (page a) else page a)
             (boxes a) (delete n (pending a)),
           [ConsoleError "Failed to save changes:";
            Alert "Could not save changes. Please try again."])
      end
  end.

(** What the user, a timer or the router can make happen. *)
Inductive Event :=
| ProfileChange (fld : ProfileField) (value : jsstring)
| PortfolioChange (i : Z) (fld : ItemField) (value : jsstring)
| AddPortfolioItem (now : Z)
| RemovePortfolioItem (i : Z)
| SelectFile (k : SlotId) (file : File)
| RemoveImage (k : SlotId)
| SaveChanges
| Settle (n : nat)
| Fire (t : Timer).

(** The handler of an event, before the render that follows it. *)
Definition handle (env : Env) (ev : Event) (a : App) : App * list Effect :=
  match ev with
  | ProfileChange fld v =>
      (mkApp (store a) (handleProfileChange fld v (page a)) (boxes a)
         (pending a), [])
  | PortfolioChange i fld v =>
      (mkApp (store a) (handlePortfolioChange i fld v (page a)) (boxes a)
         (pending a), [])
  | AddPortfolioItem now =>
      let '(p, eff) := addPortfolioItem now (page a) in
      (mkApp (store a) p (boxes a) (pending a), eff)
  | RemovePortfolioItem i =>
      (mkApp (store a) (removePortfolioItem i (page a)) (boxes a)
         (pending a), [])
  | SelectFile k file =>
      let '(b, p, eff) :=
        FileUploadBox.handleFile handleFileChange env k file
          (slot k (boxes a)) (page a) in
      (mkApp (store a) p (setSlot k b (boxes a)) (pending a), eff)
  | RemoveImage k =>
      let '(b, p, eff) :=
        FileUploadBox.removeImage handleFileChange k
          (slot k (boxes a)) (page a) in
      (mkApp (store a) p (setSlot k b (boxes a)) (pending a), eff)
  | SaveChanges => clickSave env a
  | Settle n => settle env n a
  | Fire (HideError k) =>
      (mkApp (store a) (page a)
         (setSlot k (FileUploadBox.hideError (slot k (boxes a))) (boxes a))
         (pending a),
       [])
  | Fire HideNotification =>
      let '(p, eff) := hideNotification (page a) in
      (mkApp (store a) p (boxes a) (pending a), eff)
  | Fire PushHome => (remount a, [])
  end.

(** The render after a handler: [validateForm] runs again (it only
    depends on the draft, so running it when nothing changed sets the same
    values), and each box follows its [initialImageUrl] prop. *)
Definition render (before : Store.PortfolioState) (a : App) : App := {|
  store := store a;
  page := validateForm (page a);
  boxes :=
    mkSlots
      (FileUploadBox.syncInitial (s_background (Store.images before))
         (s_background (Store.images (store a))) (s_background (boxes a)))
      (FileUploadBox.syncInitial (s_profile (Store.images before))
         (s_profile (Store.images (store a))) (s_profile (boxes a)));
  pending := pending a
|}.

Definition step (env : Env) (a : App) (ev : Event) : App * list Effect :=
  let '(a', eff) := handle env ev a in (render (store a) a', eff).

(** A run of events; the environment may answer differently each time. *)
Fixpoint run (a : App) (evs : list (Env * Event)) : App :=
  match evs with
  | [] => a
  | (env, ev) :: evs' => run (step env a ev).1 evs'
  end.

(** ** The edit page: preview *)

(** [PreviewData], and the two [useState] cells of the preview modal. *)
Record PreviewData := mkPreviewData {
  pv_profile : ProfileData;
  pv_portfolios : list PortfolioItem;
  pv_images : Slots (option jsstring)
}.

Record PreviewCells := mkPreviewCells {
  showPreview : bool;
  previewData : option PreviewData
}.

Definition initPreview : PreviewCells :=
  {| showPreview := false; previewData := None |}.

(** [status === "new" && file ? URL.createObjectURL(file)
     : status === "initial" ? stored : null] *)
Definition previewUrlFor (env : Env) (status : ImageStatus)
    (file : option File) (stored : option jsstring) : option jsstring :=
  match (if bool_decide (status = new) then file else None) with
  | Some f => Some (createObjectURL env f)
  | None => if bool_decide (status = initial) then stored else None
  end.

Definition handlePreview (env : Env) (store : Store.PortfolioState)
    (st : PageState) : PreviewCells :=
  let backgroundUrl :=
    previewUrlFor env (s_background (imageStatus st))
      (s_background (files st)) (s_background (Store.images store)) in
  let profileUrl :=
    previewUrlFor env (s_profile (imageStatus st))
      (s_profile (files st)) (s_profile (Store.images store)) in
  {| showPreview := true;
     previewData :=
       Some {| pv_profile := profile st;
               pv_portfolios := portfolioItems st;
               pv_images := mkSlots backgroundUrl profileUrl |} |}.

(** [onClose] of the modal, also run by its Escape key listener. *)
Definition closePreview (pv : PreviewCells) : PreviewCells :=
  {| showPreview := false; previewData := previewData pv |}.

(** ** The forms and the checklist of the edit page *)

(** [ProfileForm]: the [error] prop of the field of each name. *)
Definition profileFieldError (fld : ProfileField) (errs : FormErrors)
    : option string :=
  match fld with
  | f_name => errs !! "profile_name"
  | f_title => errs !! "profile_title"
  | f_description => errs !! "profile_description"
  end.

(** [PortfolioItemForm]: the [error] prop of the field of each name. *)
Definition itemFieldError (fld : ItemField) (item : PortfolioItem)
    (errs : FormErrors) : option string :=
  match fld with
  | f_position => errs !! ("item_position_" +:+ pretty (id item))
  | f_company => errs !! ("item_company_" +:+ pretty (id item))
  | f_startDate => errs !! ("item_startDate_" +:+ pretty (id item))
  | f_endDate => errs !! ("item_endDate_" +:+ pretty (id item))
  | f_item_description =>
      errs !! ("item_description_" +:+ pretty (id item))
  end.

Module ValidationStatus.

(** The [checks] prop. *)
Record Checks := mkChecks {
  c_background : bool;
  c_profile : bool;
  c_fields : bool
}.

(** What the component renders: whether the summary line is there, and
    the three items with their green or red state. *)
Record View := mkView {
  summaryShown : bool;
  items : list (string * bool)
}.

Definition view (isFormValid : bool) (checks : Checks) : View := {|
  summaryShown := negb isFormValid;
  items := [("Background Image", c_background checks);
            ("Profile Image", c_profile checks);
            ("Required Fields", c_fields checks)]
|}.

End ValidationStatus.


(** [disabled={!isFormValid || isSaving}] of the Save button. *)
Definition saveDisabled (st : PageState) : bool :=
  negb (isFormValid st) || isSaving st.

(** ** The home page: components/features/ProfileSection *)

Module ProfileSection.

Definition placeholderAvatar : jsstring :=
  lit "data:image/svg+xml,%3Csvg xmlns='http://www.w3.org/2000/svg' viewBox='0 0 200 200'%3E%3Ccircle cx='100' cy='100' r='100' fill='%23e5e7eb'/%3E%3Ccircle cx='100' cy='80' r='35' fill='%239ca3af'/%3E%3Cpath d='M100 130c-25 0-45 15-45 35v35h90v-35c0-20-20-35-45-35z' fill='%239ca3af'/%3E%3C/svg%3E".

(** [a || b] on strings. *)
Definition orText (a b : jsstring) : jsstring := if truthy a then a else b.

(** What the section shows: the cover image ([None] is the gradient),
    the source of the avatar, and the three texts. *)
Record View := mkView {
  cover : option jsstring;
  avatar : jsstring;
  heading : jsstring;
  subheading : jsstring;
  summary : jsstring
}.

Definition view (p : ProfileData)
    (backgroundImageUrl profileImageUrl : option jsstring) : View := {|
  cover := if truthy_opt backgroundImageUrl then backgroundImageUrl else None;
  avatar :=
    match profileImageUrl with
    | Some url => orText url placeholderAvatar
    | None => placeholderAvatar
    end;
  heading := orText (name p) (lit "Your Name");
  subheading := orText (title p) (lit "Your Title");
  summary :=
    orText (description p) (lit "Your professional description goes here.")
|}.

End ProfileSection.

(** [HomePage] hands the store to the section. *)
Definition homeProfile (s : Store.PortfolioState) : ProfileSection.View :=
  ProfileSection.view (Store.profile s)
    (s_background (Store.images s)) (s_profile (Store.images s)).

(** ** Vocabulary of the properties *)

(** A string with at least one character that [trim] keeps. *)
Definition nonblank (s : jsstring) : Prop :=
  Exists (fun c => is_white_space c = false) s.

(** The draft: what the user edits, as opposed to what the page derives
    from it or shows about itself. *)
Definition draft (st : PageState) :=
  (profile st, portfolioItems st, files st, imageStatus st).

Definition profileFilled (p : ProfileData) : Prop :=
  nonblank (name p) ∧ nonblank (title p) ∧ nonblank (description p).

(** Every one of the five text fields has a character that is not white
    space. *)
Definition itemNonblank (item : PortfolioItem) : Prop :=
  nonblank (position item) ∧ nonblank (company item) ∧
  nonblank (startDate item) ∧ nonblank (endDate item) ∧
  nonblank (item_description item).

(** What [itemErrors] asks of an item: the two dates only have to be
    non-empty. *)
Definition itemFilled (item : PortfolioItem) : Prop :=
  nonblank (position item) ∧ nonblank (company item) ∧
  startDate item ≠ [] ∧ endDate item ≠ [] ∧
  nonblank (item_description item).

Definition noSlotRemoved (st : PageState) : Prop :=
  s_background (imageStatus st) ≠ removed ∧
  s_profile (imageStatus st) ≠ removed.

(** A filled-in draft whose only entry has a start date of one space. *)
Definition draftSpaceDate : PageState := {|
  profile := {| name := lit "Ann"; title := lit "Dev";
                description := lit "Hi" |};
  portfolioItems :=
    [ {| id := 1; position := lit "Engineer"; company := lit "Acme";
         startDate := lit " "; endDate := lit "2025-01";
         item_description := lit "Work" |} ];
  files := mkSlots None None;
  imageStatus := mkSlots initial initial;
  errors := ∅;
  isFormValid := false;
  notification := mkToast false "";
  isSaving := false
|}.

(** A filled-in draft whose only entry has a position of one space. *)
Definition draftSpacePosition : PageState := {|
  profile := {| name := lit "Ann"; title := lit "Dev";
                description := lit "Hi" |};
  portfolioItems :=
    [ {| id := 1; position := lit " "; company := lit "Acme";
         startDate := lit "2024-01"; endDate := lit "2025-01";
         item_description := lit "Work" |} ];
  files := mkSlots None None;
  imageStatus := mkSlots initial initial;
  errors := ∅;
  isFormValid := false;
  notification := mkToast false "";
  isSaving := false
|}.

(** [setImage(slot, fileOrNull)]: choosing a file in the slot's upload
    box, or pressing its Remove button. *)
Definition setImage (env : Env) (k : SlotId) (fileOrNull : option File)
    (box : FileUploadBox.State) (st : PageState)
    : FileUploadBox.State * PageState * list Effect :=
  match fileOrNull with
  | Some file => FileUploadBox.handleFile handleFileChange env k file box st
  | None => FileUploadBox.removeImage handleFileChange k box st
  end.

(** A file that passes both checks of [handleFile]. *)
Definition accepted (file : File) : Prop :=
  (file_size file ≤ 3 * 1024 * 1024)%N ∧
  file_type file ∈ FileUploadBox.allowedTypes.

(** Events that leave the page, after which the draft is opened anew. *)
Definition leavesPage (ev : Event) : bool :=
  match ev with Fire PushHome => true | _ => false end.

Global Instance accepted_dec (file : File) : Decision (accepted file).
Proof. unfold accepted. apply _. Defined.

(** Events that supply slot [k] with a file its box accepts. *)
Definition suppliesFile (k : SlotId) (ev : Event) : bool :=
  match ev with
  | SelectFile k' file => bool_decide (k' = k ∧ accepted file)
  | _ => false
  end.

(** An environment in which every awaited call succeeds. *)
Definition envOk : Env := {|
  imageCompression := fun f _ => Ok f;
  readAsDataURL := fun f => Ok (file_type f);
  createObjectURL := fun f => lit "blob:" ++ file_type f
|}.


Definition pngFile : File := {|
  file_size := 1024;
  file_type := lit "image/png";
  file_bytes := [137; 80; 78; 71]%N
|}.

Definition gifFile : File := {|
  file_size := 1024;
  file_type := lit "image/gif";
  file_bytes := [71; 73; 70]%N
|}.

(** The MIME types of the two formats the box takes: PNG, and JPEG under
    its registered name or under the alias the allow-list also has. *)
Definition isPNG (t : jsstring) : Prop := t = lit "image/png".

Definition isJPEG (t : jsstring) : Prop :=
  t = lit "image/jpeg" ∨ t = lit "image/jpg".

Definition threeMiB : N := 3 * 1024 * 1024.

(** The page opened on a fresh install, when the persistent store holds
    nothing. *)
Definition freshApp : App := mount (Store.hydrate None).

(** A store whose background image is the empty string. *)
Definition storeEmptyImage : Store.PortfolioState := {|
  Store.profile := Store.profile Store.placeholderData;
  Store.portfolios := Store.portfolios Store.placeholderData;
  Store.images := mkSlots (Some []) (Some (lit "data:image/png;base64,AA=="))
|}.

(** What [saveChanges] does when it refuses to save. *)
Definition validationAlert : list Effect :=
  [Alert "Please complete all required fields and upload both images."].

(** Slot [k] is empty in the store and in the draft, the form is
    invalid, and no save is in flight. *)
Definition blocked (k : SlotId) (a : App) : Prop :=
  truthy_opt (slot k (Store.images (store a))) = false ∧
  slot k (imageStatus (page a)) = removed ∧
  isFormValid (page a) = false ∧
  pending a = [].

(** The stores the application persists: those reached from a fresh
    install by any events. *)
Definition persisted (s : Store.PortfolioState) : Prop :=
  ∃ evs, store (run freshApp evs) = s.

(** The text of the store validates, and no image of it is the empty
    string. *)
Definition storeOk (s : Store.PortfolioState) : Prop :=
  formErrors (Store.profile s) (Store.portfolios s) = ∅ ∧
  ∀ k, slot k (Store.images s) ≠ Some [].

(** On a fresh install: both images chosen, Save clicked, and the save
    settled. *)
Definition firstSave : list (Env * Event) :=
  [(envOk, SelectFile slot_background pngFile);
   (envOk, SelectFile slot_profile pngFile);
   (envOk, SaveChanges);
   (envOk, Settle 0)].

Definition storeAfterFirstSave : Store.PortfolioState :=
  store (run freshApp firstSave).




Definition saveFailedAlert : list Effect :=
  [ConsoleError "Failed to save changes:";
   Alert "Could not save changes. Please try again."].

(** The whole record as a value for [setPortfolioData]. *)
Definition wholeRecord (s : Store.PortfolioState) : Store.PartialState :=
  {| Store.p_profile := Some (Store.profile s);
     Store.p_portfolios := Some (Store.portfolios s);
     Store.p_images := Some (Store.images s) |}.


(** A store with both images, whose text validates. *)
Definition storeFilled : Store.PortfolioState := {|
  Store.profile := Store.profile Store.placeholderData;
  Store.portfolios := Store.portfolios Store.placeholderData;
  Store.images := mkSlots (Some (lit "data:image/png;base64,AA=="))
                          (Some (lit "data:image/jpeg;base64,BB=="))
|}.

(** Neither the draft nor the store holds more than ten entries, nor
    does the draft a save in flight closed over. *)
Definition withinLimit (a : App) : Prop :=
  (length (portfolioItems (page a)) ≤ 10)%nat ∧
  (length (Store.portfolios (store a)) ≤ 10)%nat ∧
  Forall (fun p => (length (portfolioItems (closedPage p)) ≤ 10)%nat)
    (pending a).

Definition limitAlert : list Effect :=
  [Alert "Maximum 10 portfolio entries allowed"].

(** A draft with ten entries. *)
Definition draftFull : PageState :=
  setPortfolioItems (fun _ => blankItem <$> [1; 2; 3; 4; 5; 6; 7; 8; 9; 10])
    (mountPage Store.placeholderData).

(** A slot has a pending file exactly when its status is [new]. *)
Definition pendingIffNew (st : PageState) : Prop :=
  ∀ k, is_Some (slot k (files st)) ↔ slot k (imageStatus st) = new.

(** A slot that is [initial] has an image in the store. *)
Definition initialIsStored (a : App) : Prop :=
  ∀ k, slot k (imageStatus (page a)) = initial →
       truthy_opt (slot k (Store.images (store a))) = true.

(** The cells [errors] and [isFormValid] are those [validateForm]
    computes from the draft. *)
Definition rendered (st : PageState) : Prop := validateForm st = st.

(** What a save closed over: a rendered page that passed the guard,
    whose slots agree with its pending files and with the store it was
    rendered on. *)
Definition closureOk (p : PendingSave) : Prop :=
  isFormValid (closedPage p) = true ∧
  rendered (closedPage p) ∧
  pendingIffNew (closedPage p) ∧
  ∀ k, slot k (imageStatus (closedPage p)) = initial →
       truthy_opt (slot k (Store.images (closedStore p))) = true.

Definition consistent (a : App) : Prop :=
  pendingIffNew (page a) ∧ initialIsStored a ∧ rendered (page a) ∧
  Forall closureOk (pending a).

(** The store and the page that the save an event runs to its end closed
    over: those of the click itself, or those of the save in flight that
    settles. *)
Definition closedOver (a : App) (ev : Event) : option PendingSave :=
  match ev with
  | SaveChanges => Some (mkPending (store a) (page a) true)
  | Settle n => pending a !! n
  | _ => None
  end.

(** The store call of a successful save is among the effects. *)
Definition saved (eff : list Effect) : Prop := ∃ data, StoreSet data ∈ eff.

(** What [itemErrors] tests on each field of an item. *)
Definition fieldMissing (fld : ItemField) (item : PortfolioItem) : bool :=
  match fld with
  | f_startDate | f_endDate => empty (getItemField fld item)
  | _ => blank (getItemField fld item)
  end.

Definition fieldMessage (fld : ItemField) : string :=
  match fld with
  | f_position => "Position is required."
  | f_company => "Company is required."
  | f_startDate => "Start date is required."
  | f_endDate => "End date is required."
  | f_item_description => "Description is required."
  end.

Definition getProfileField (fld : ProfileField) (p : ProfileData)
    : jsstring :=
  match fld with
  | f_name => name p
  | f_title => title p
  | f_description => description p
  end.

Definition profileMessage (fld : ProfileField) : string :=
  match fld with
  | f_name => "Name is required."
  | f_title => "Title is required."
  | f_description => "Description is required."
  end.

(** The key under which [itemErrors] files the error of a field of the
    entry with id [i], and [PortfolioItemForm] looks it up. *)
Definition itemKey (fld : ItemField) (i : Z) : string :=
  match fld with
  | f_position => "item_position_" +:+ pretty i
  | f_company => "item_company_" +:+ pretty i
  | f_startDate => "item_startDate_" +:+ pretty i
  | f_endDate => "item_endDate_" +:+ pretty i
  | f_item_description => "item_description_" +:+ pretty i
  end.

Definition profileKey (fld : ProfileField) : string :=
  match fld with
  | f_name => "profile_name"
  | f_title => "profile_title"
  | f_description => "profile_description"
  end.

Global Instance ItemField_eq_dec : EqDecision ItemField.
Proof. solve_decision. Defined.

Global Instance ProfileField_eq_dec : EqDecision ProfileField.
Proof. solve_decision. Defined.

(** Some entry with id [i] fails the test on field [fld]. *)
Definition someMissing (fld : ItemField) (i : Z)
    (items : list PortfolioItem) : Prop :=
  Exists (fun item => id item = i ∧ fieldMissing fld item = true) items.

(** The test of [itemErrors] on a value typed into field [fld]. *)
Definition valueMissing (fld : ItemField) (v : jsstring) : bool :=
  match fld with
  | f_startDate | f_endDate => empty v
  | _ => blank v
  end.

(** * Properties *)

(** ** Strings *)

Lemma trimStart_nil_iff (s : jsstring) :
  trimStart s = [] ↔ Forall (fun c => is_white_space c = true) s.
Proof.
  induction s as [|c s IH]; simpl.
  - split; [constructor | done].
  - destruct (is_white_space c) eqn:Hc.
    + rewrite IH. split.
      * by constructor.
      * by inversion 1.
    + split; [done |]. inversion 1; congruence.
Qed.

Lemma trimStart_all_or_head (s : jsstring) :
  trimStart s = [] ∨
  ∃ c s', trimStart s = c :: s' ∧ is_white_space c = false.
Proof.
  induction s as [|c s IH]; simpl; [by left |].
  destruct (is_white_space c) eqn:Hc; [done |].
  right. by exists c, s.
Qed.

Lemma trim_nil_iff (s : jsstring) :
  trim s = [] ↔ Forall (fun c => is_white_space c = true) s.
Proof.
  rewrite <- trimStart_nil_iff. unfold trim, trimEnd.
  destruct (trimStart_all_or_head s) as [-> | (c & s' & -> & Hc)].
  - done.
  - split; [| done]. intros H.
    apply (f_equal reverse) in H. rewrite reverse_involutive in H.
    change (reverse []) with (@nil N) in H.
    apply trimStart_nil_iff in H.
    rewrite reverse_cons in H. apply Forall_app in H as [_ H].
    inversion H; congruence.
Qed.

Lemma blank_false_iff (s : jsstring) : blank s = false ↔ nonblank s.
Proof.
  unfold blank, nonblank.
  rewrite negb_false_iff.
  destruct (trim s) eqn:Ht; simpl.
  - apply trim_nil_iff in Ht. split; [done |].
    intros Hex. apply Exists_exists in Hex as (c & Hin & Hc).
    rewrite Forall_forall in Ht. specialize (Ht c Hin). congruence.
  - split; [intros _ | done].
    destruct (decide (Forall (fun c => is_white_space c = true) s))
      as [Hall | Hnot].
    + apply trim_nil_iff in Hall. congruence.
    + apply not_Forall_Exists in Hnot; [| intros c; apply _].
      eapply Exists_impl; [exact Hnot |]. simpl.
      intros c Hc. by destruct (is_white_space c).
Qed.

Lemma empty_false_iff (s : jsstring) : empty s = false ↔ s ≠ [].
Proof. by destruct s. Qed.

Example trim_both_ends : trim (lit "  John Doe ") = lit "John Doe".
Proof. reflexivity. Qed.

Example trim_no_break_space : trim [0x00A0; 0x2003; 0x0009]%N = [].
Proof. reflexivity. Qed.

(** ** Validation *)

Lemma require_empty_iff c k m (e : FormErrors) :
  require c k m e = ∅ ↔ c = false ∧ e = ∅.
Proof.
  unfold require. destruct c.
  - split; [| by intros [? _]].
    intros Hins. destruct (insert_non_empty _ _ _ Hins).
  - split; [by intros -> | by intros [_ ->]].
Qed.

Lemma profileErrors_empty_iff p (e : FormErrors) :
  profileErrors p e = ∅ ↔ e = ∅ ∧ profileFilled p.
Proof.
  unfold profileErrors, profileFilled.
  rewrite !require_empty_iff, !blank_false_iff. tauto.
Qed.

Lemma itemErrors_empty_iff (e : FormErrors) item :
  itemErrors e item = ∅ ↔ e = ∅ ∧ itemFilled item.
Proof.
  unfold itemErrors, itemFilled.
  rewrite !require_empty_iff, !blank_false_iff, !empty_false_iff. tauto.
Qed.

Lemma foldl_itemErrors_empty_iff items (e : FormErrors) :
  foldl itemErrors e items = ∅ ↔ e = ∅ ∧ Forall itemFilled items.
Proof.
  revert e. induction items as [|item items IH]; intros e; simpl.
  - split; [by intros -> | tauto].
  - rewrite IH, itemErrors_empty_iff, Forall_cons. tauto.
Qed.

Lemma formErrors_empty_iff p items :
  formErrors p items = ∅ ↔ profileFilled p ∧ Forall itemFilled items.
Proof.
  unfold formErrors.
  rewrite foldl_itemErrors_empty_iff, profileErrors_empty_iff. tauto.
Qed.

Lemma isFormValid_validateForm st :
  isFormValid (validateForm st) = true ↔
  formErrors (profile st) (portfolioItems st) = ∅ ∧ noSlotRemoved st.
Proof.
  unfold validateForm, noSlotRemoved. simpl.
  rewrite !andb_true_iff, !negb_true_iff, !bool_decide_eq_false,
    bool_decide_eq_true, map_size_empty_iff. tauto.
Qed.

Example formErrors_blank_item :
  formErrors (Store.profile Store.placeholderData) [blankItem 7]
    !! "item_position_7" = Some "Position is required.".
Proof. by vm_compute. Qed.

Example storeFilled_valid : isFormValid (mountPage storeFilled) = true.
Proof. by vm_compute. Qed.

(** C1, as the claim words it, fails on the code in both readings of
    "non-blank" for an entry: a start date of one space passes validation
    although it is blank, and a position of one space fails validation
    although it is not empty. *)
Lemma validity_not_five_nonblank :
  (isFormValid (validateForm draftSpaceDate) = true ∧
   ¬ (profileFilled (profile draftSpaceDate) ∧
      Forall itemNonblank (portfolioItems draftSpaceDate) ∧
      noSlotRemoved draftSpaceDate)) ∧
  (isFormValid (validateForm draftSpacePosition) = false ∧
   profileFilled (profile draftSpacePosition) ∧
   Forall (fun item => ∀ fld, getItemField fld item ≠ [])
     (portfolioItems draftSpacePosition) ∧
   noSlotRemoved draftSpacePosition).
Proof.
  split.
  - split; [by vm_compute |].
    intros (_ & Hitems & _).
    apply Forall_inv in Hitems as (_ & _ & Hstart & _).
    unfold nonblank in Hstart. simpl in Hstart.
    apply Exists_cons in Hstart as [Hc | Hnil].
    + vm_compute in Hc. discriminate.
    + by apply Exists_nil in Hnil.
  - split; [by vm_compute |].
    split.
    + unfold profileFilled, nonblank; simpl.
      repeat split; apply Exists_cons_hd; by vm_compute.
    + split.
      * repeat constructor. intros []; by vm_compute.
      * split; by vm_compute.
Qed.

(** C1 (amended): the validity flag that [validateForm] computes is true
    exactly when the three profile fields are non-blank after trimming,
    every entry has a non-blank position, company and description and a
    non-empty start date and end date, and neither image slot has status
    [removed]. *)
Theorem validity_iff (st : PageState) :
  isFormValid (validateForm st) = true ↔
  profileFilled (profile st) ∧
  Forall itemFilled (portfolioItems st) ∧
  noSlotRemoved st.
Proof.
  rewrite isFormValid_validateForm, formErrors_empty_iff. tauto.
Qed.

(** ** Slots *)

Lemma slot_setSlot_eq {A} (k : SlotId) (v : A) o :
  slot k (setSlot k v o) = v.
Proof. by destruct k. Qed.

Lemma slot_setSlot_ne {A} (k k' : SlotId) (v : A) o :
  k ≠ k' → slot k' (setSlot k v o) = slot k' o.
Proof. by destruct k, k'. Qed.

(** ** The upload box *)

Lemma includes_true_iff a x : includes a x = true ↔ x ∈ a.
Proof. unfold includes. apply bool_decide_eq_true. Qed.

Lemma handleFile_accepted {P} (on : SlotId → option File → P → P)
    env k file box (parent : P) :
  accepted file →
  FileUploadBox.handleFile on env k file box parent =
    ({| FileUploadBox.previewUrl := Some (createObjectURL env file);
        FileUploadBox.error := FileUploadBox.error box |},
     on k (Some file) parent, []).
Proof.
  intros [Hsize Htype]. unfold FileUploadBox.handleFile.
  destruct (N.ltb_spec (3 * 1024 * 1024) (file_size file)) as [Hlt | _];
    [lia |].
  apply includes_true_iff in Htype. by rewrite Htype.
Qed.

Lemma handleFile_rejected {P} (on : SlotId → option File → P → P)
    env k file box (parent : P) :
  ¬ accepted file →
  ∃ msg,
    FileUploadBox.handleFile on env k file box parent =
      ({| FileUploadBox.previewUrl := FileUploadBox.previewUrl box;
          FileUploadBox.error := mkToast true msg |},
       parent, [SetTimeout (HideError k) 3000]).
Proof.
  intros Hrej. unfold FileUploadBox.handleFile, accepted in *.
  destruct (N.ltb_spec (3 * 1024 * 1024) (file_size file)) as [Hlt | Hle].
  - eexists. reflexivity.
  - destruct (includes _ _) eqn:Hinc; simpl.
    + apply includes_true_iff in Hinc. tauto.
    + eexists. reflexivity.
Qed.

(** Whatever is chosen in a box, the page either stays as it is or goes
    through [handleFileChange]. *)
Lemma setImage_page env k fileOrNull box st :
  (setImage env k fileOrNull box st).1.2 = st ∨
  (setImage env k fileOrNull box st).1.2 = handleFileChange k fileOrNull st.
Proof.
  destruct fileOrNull as [file |]; simpl; [| by right].
  destruct (accepted_dec file) as [Hacc | Hrej].
  - right. by rewrite handleFile_accepted.
  - left. by destruct (handleFile_rejected handleFileChange env k file box st
                         Hrej) as [msg ->].
Qed.

Lemma handleFileChange_status k file st :
  slot k (imageStatus (handleFileChange k file st)) =
    match file with Some _ => new | None => removed end.
Proof. unfold handleFileChange. simpl. apply slot_setSlot_eq. Qed.

Lemma handleFileChange_status_ne k k' file st :
  k ≠ k' →
  slot k' (imageStatus (handleFileChange k file st)) =
    slot k' (imageStatus st).
Proof. unfold handleFileChange. simpl. apply slot_setSlot_ne. Qed.

Lemma handleFileChange_not_initial k k' file st :
  slot k' (imageStatus st) ≠ initial →
  slot k' (imageStatus (handleFileChange k file st)) ≠ initial.
Proof.
  intros Hne. destruct (decide (k = k')) as [<- | Hk].
  - rewrite handleFileChange_status. by destruct file.
  - by rewrite handleFileChange_status_ne.
Qed.

(** ** Rendering and the run of events *)

Lemma validateForm_draft st : draft (validateForm st) = draft st.
Proof. reflexivity. Qed.

Lemma validateForm_idem st : validateForm (validateForm st) = validateForm st.
Proof. reflexivity. Qed.

(** After the mount and after every event the flag a handler reads is
    the validity of the draft it reads. *)
Lemma mount_flag_current s :
  isFormValid (page (mount s)) = isFormValid (validateForm (page (mount s))).
Proof. reflexivity. Qed.

Lemma step_flag_current env a ev :
  isFormValid (page (step env a ev).1) =
    isFormValid (validateForm (page (step env a ev).1)).
Proof. unfold step. by destruct (handle env ev a). Qed.

Lemma validateForm_removed k st :
  slot k (imageStatus st) = removed → isFormValid (validateForm st) = false.
Proof.
  intros Hk. apply not_true_is_false. intros Hv.
  apply isFormValid_validateForm in Hv as [_ [Hb Hp]].
  destruct k; simpl in Hk; congruence.
Qed.

(** Neither the click on Save nor the end of a save in flight touches
    the draft. *)
Lemma clickSave_draft env a :
  draft (page (clickSave env a).1) = draft (page a).
Proof.
  unfold clickSave.
  destruct (isFormValid (page a) && awaits (page a)); [done |].
  unfold saveChanges. destruct (isFormValid (page a)); simpl; [| done].
  by destruct (recordToSave env (store a) (page a)).
Qed.

Lemma settle_draft env n a :
  draft (page (settle env n a).1) = draft (page a).
Proof.
  unfold settle. destruct (pending a !! n) as [p |]; [| done].
  by destruct (recordToSave env (closedStore p) (closedPage p)),
              (mounted p).
Qed.

(** The page after the handler of an event that stays on the page: the
    status of a slot is what it was, or what [handleFileChange] made it. *)
Lemma handle_imageStatus env ev a :
  leavesPage ev = false →
  imageStatus (page (handle env ev a).1) = imageStatus (page a) ∨
  ∃ k file,
    imageStatus (page (handle env ev a).1) =
      imageStatus (handleFileChange k file (page a)).
Proof.
  intros Hstay. destruct ev as [ | | now | | k file | k | | n | t]; simpl.
  - by left.
  - by left.
  - unfold addPortfolioItem. case_bool_decide; by left.
  - by left.
  - pose proof (setImage_page env k (Some file) (slot k (boxes a)) (page a))
      as Hpage. simpl in Hpage.
    destruct (FileUploadBox.handleFile _ _ _ _ _ _) as [[b p] eff].
    simpl in *. destruct Hpage as [-> | ->]; [by left | right; eauto].
  - right. by exists k, None.
  - left. pose proof (clickSave_draft env a) as Hd. by injection Hd.
  - left. pose proof (settle_draft env n a) as Hd. by injection Hd.
  - destruct t; simpl in *; [by left | by left | done].
Qed.

Lemma allowedTypes_formats t :
  t ∈ FileUploadBox.allowedTypes ↔ isPNG t ∨ isJPEG t.
Proof.
  unfold FileUploadBox.allowedTypes, isPNG, isJPEG.
  rewrite !elem_of_cons, elem_of_nil. tauto.
Qed.

Lemma run_stays_not_initial k evs : ∀ a,
  Forall (fun ee => leavesPage ee.2 = false) evs →
  slot k (imageStatus (page a)) ≠ initial →
  slot k (imageStatus (page (run a evs))) ≠ initial.
Proof.
  induction evs as [|[env ev] evs IH]; intros a Hstay Hne; simpl; [done |].
  apply Forall_cons in Hstay as [Hev Hstay]. simpl in Hev.
  apply IH; [done |].
  unfold step.
  pose proof (handle_imageStatus env ev a Hev) as Hst.
  destruct (handle env ev a) as [a' eff]. simpl in *.
  destruct Hst as [-> | (k' & file & ->)]; [done |].
  by apply handleFileChange_not_initial.
Qed.

(** ** The image slots *)

(** C2: whatever the status of a slot, an accepted [setImage] with a file
    makes it [new] with that file pending, and [setImage] with null makes
    it [removed] with no file pending; the other slot keeps its status;
    and along any run of events that stays on the page a slot that is not
    [initial] never becomes [initial] again. *)
Theorem setImage_transitions (env : Env) (k : SlotId)
    (box : FileUploadBox.State) (st : PageState) :
  (∀ file, accepted file →
     let st' := (setImage env k (Some file) box st).1.2 in
     slot k (imageStatus st') = new ∧ slot k (files st') = Some file) ∧
  (let st' := (setImage env k None box st).1.2 in
   slot k (imageStatus st') = removed ∧ slot k (files st') = None) ∧
  (∀ fileOrNull k', k' ≠ k →
     let st' := (setImage env k fileOrNull box st).1.2 in
     slot k' (imageStatus st') = slot k' (imageStatus st)) ∧
  (∀ a evs,
     Forall (fun ee => leavesPage ee.2 = false) evs →
     slot k (imageStatus (page a)) ≠ initial →
     slot k (imageStatus (page (run a evs))) ≠ initial).
Proof.
  split; [| split; [| split]].
  - intros file Hacc. simpl. rewrite handleFile_accepted by done. simpl.
    by rewrite !slot_setSlot_eq.
  - simpl. by rewrite !slot_setSlot_eq.
  - intros fileOrNull k' Hk. simpl.
    destruct (setImage_page env k fileOrNull box st) as [-> | ->]; [done |].
    by apply handleFileChange_status_ne.
  - intros a evs. apply run_stays_not_initial.
Qed.

(** C6: a file of more than 3 MiB, or whose type is neither PNG nor
    JPEG, is refused: the page, and with it the status and the pending
    file of every slot, is unchanged, the box shows an error, and a timer
    that hides the error again is set. *)
Theorem setImage_rejects (env : Env) (k : SlotId) (file : File)
    (box : FileUploadBox.State) (st : PageState) :
  (threeMiB < file_size file)%N ∨
    ¬ (isPNG (file_type file) ∨ isJPEG (file_type file)) →
  ∃ msg,
    setImage env k (Some file) box st =
      ({| FileUploadBox.previewUrl := FileUploadBox.previewUrl box;
          FileUploadBox.error := mkToast true msg |},
       st,
       [SetTimeout (HideError k) 3000]) ∧
    FileUploadBox.error
      (FileUploadBox.hideError
         {| FileUploadBox.previewUrl := FileUploadBox.previewUrl box;
            FileUploadBox.error := mkToast true msg |}) = mkToast false "".
Proof.
  intros Hbad.
  destruct (handleFile_rejected handleFileChange env k file box st)
    as [msg Hmsg].
  - unfold accepted. rewrite allowedTypes_formats.
    unfold threeMiB in Hbad. intros [Hsize Htype].
    destruct Hbad as [Hbig | Hfmt]; [lia | tauto].
  - exists msg. simpl. by rewrite Hmsg.
Qed.

Lemma setImage_rejects_witness :
  ∃ msg,
    setImage envOk slot_background (Some gifFile)
      (FileUploadBox.init None) (mountPage Store.placeholderData) =
      ({| FileUploadBox.previewUrl := None;
          FileUploadBox.error := mkToast true msg |},
       mountPage Store.placeholderData,
       [SetTimeout (HideError slot_background) 3000]) ∧
    FileUploadBox.error
      (FileUploadBox.hideError
         {| FileUploadBox.previewUrl := None;
            FileUploadBox.error := mkToast true msg |}) = mkToast false "".
Proof.
  apply (setImage_rejects envOk slot_background gifFile
           (FileUploadBox.init None) (mountPage Store.placeholderData)).
  right. unfold isPNG, isJPEG. simpl. intros [H | [H | H]]; discriminate H.
Defined.

(** ** Opening the draft *)

Lemma mount_imageStatus s k :
  slot k (imageStatus (page (mount s))) =
    initialImageStatus (slot k (Store.images s)).
Proof. by destruct k. Qed.

Lemma initialImageStatus_initial image :
  initialImageStatus image = initial ↔ ∃ url, image = Some url ∧ url ≠ [].
Proof.
  unfold initialImageStatus. destruct image as [[|c url] |]; simpl.
  - split; [done |]. by intros (url & [= <-] & Hne).
  - split; [| done]. intros _. by exists (c :: url).
  - split; [done |]. by intros (url & [=] & _).
Qed.

Lemma initialImageStatus_removed image :
  initialImageStatus image = removed ↔ truthy_opt image = false.
Proof. unfold initialImageStatus. by destruct (truthy_opt image). Qed.

Lemma mount_blocked s k :
  truthy_opt (slot k (Store.images s)) = false → blocked k (mount s).
Proof.
  intros Hk. unfold blocked.
  assert (slot k (imageStatus (page (mount s))) = removed) as Hrem.
  { rewrite mount_imageStatus. by apply initialImageStatus_removed. }
  split; [done |]. split; [done |]. split; [| done].
  by apply (validateForm_removed k).
Qed.

Lemma saveChanges_invalid env s st :
  isFormValid st = false → saveChanges env s st = (s, st, validationAlert).
Proof. intros Hv. unfold saveChanges. by rewrite Hv. Qed.

Lemma render_blocked k before a :
  truthy_opt (slot k (Store.images (store a))) = false →
  slot k (imageStatus (page a)) = removed →
  pending a = [] →
  blocked k (render before a).
Proof.
  intros Hs Hr Hp. unfold blocked. simpl.
  split; [done |]. split; [done |]. split; [| done].
  by apply (validateForm_removed k).
Qed.

Lemma clickSave_invalid env a :
  isFormValid (page a) = false → clickSave env a = (a, validationAlert).
Proof.
  intros Hv. unfold clickSave. rewrite Hv. simpl.
  rewrite saveChanges_invalid by done. by destruct a.
Qed.

Lemma settle_none env n a :
  pending a !! n = None → settle env n a = (a, []).
Proof. intros Hn. unfold settle. by rewrite Hn. Qed.

Lemma step_blocked env ev k a :
  suppliesFile k ev = false → blocked k a → blocked k (step env a ev).1.
Proof.
  intros Hev (Hstore & Hrem & Hinv & Hnone). unfold step.
  destruct ev as [ | | now | | k' file | k' | | n | t]; simpl in *.
  - by apply render_blocked.
  - by apply render_blocked.
  - unfold addPortfolioItem. case_bool_decide; by apply render_blocked.
  - by apply render_blocked.
  - apply bool_decide_eq_false in Hev.
    destruct (decide (accepted file)) as [Hacc | Hrej].
    + rewrite handleFile_accepted by done.
      apply render_blocked; [done | | done]. simpl.
      rewrite slot_setSlot_ne; [done | tauto].
    + destruct (handleFile_rejected handleFileChange env k' file
                  (slot k' (boxes a)) (page a) Hrej) as [msg ->].
      by apply render_blocked.
  - apply render_blocked; [done | | done]. simpl.
    destruct (decide (k' = k)) as [-> | Hk].
    + apply slot_setSlot_eq.
    + by rewrite slot_setSlot_ne.
  - rewrite (clickSave_invalid env _ Hinv). by apply render_blocked.
  - assert (pending a !! n = None) as Hn by by rewrite Hnone.
    rewrite (settle_none env n a Hn). by apply render_blocked.
  - destruct t as [k' | |]; simpl.
    + by apply render_blocked.
    + by apply render_blocked.
    + apply render_blocked; [done | | simpl; by rewrite Hnone].
      change (page (remount a)) with (page (mount (store a))).
      rewrite mount_imageStatus. by apply initialImageStatus_removed.
Qed.

Lemma run_blocked k evs : ∀ a,
  Forall (fun ee => suppliesFile k ee.2 = false) evs →
  blocked k a → blocked k (run a evs).
Proof.
  induction evs as [|[env ev] evs IH]; intros a Hevs Hb; simpl; [done |].
  apply Forall_cons in Hevs as [Hev Hevs].
  apply IH; [done |]. by apply step_blocked.
Qed.

(** C8: on a fresh install the draft has the placeholder name and title,
    exactly one entry, dated 2023-01 to 2025-01, no image in the store and
    none pending, and is not valid. *)
Theorem fresh_install_draft :
  name (profile (page freshApp)) = lit "John Doe" ∧
  title (profile (page freshApp)) = lit "Senior Frontend Developer" ∧
  (∃ item,
     portfolioItems (page freshApp) = [item] ∧
     startDate item = lit "2023-01" ∧ endDate item = lit "2025-01") ∧
  Store.images (store freshApp) = mkSlots None None ∧
  files (page freshApp) = mkSlots None None ∧
  isFormValid (page freshApp) = false.
Proof.
  split; [reflexivity |]. split; [reflexivity |].
  split; [eexists; split; [reflexivity |]; split; reflexivity |].
  split; [reflexivity |]. split; [reflexivity |].
  by apply (validateForm_removed slot_background).
Qed.

(** The status a slot opens with is a truthiness test on the stored
    image: on the empty string, which is not null, it is [removed]. *)
Example open_on_empty_string :
  slot slot_background (Store.images storeEmptyImage) ≠ None ∧
  slot slot_background (imageStatus (page (mount storeEmptyImage))) = removed.
Proof. split; [done | reflexivity]. Qed.

(** On any store, a slot opens [initial] exactly on a non-empty stored
    string, and [removed] on null and on the empty string. *)
Lemma mount_status (s : Store.PortfolioState) (k : SlotId) :
  (slot k (imageStatus (page (mount s))) = initial ↔
     ∃ url, slot k (Store.images s) = Some url ∧ url ≠ []) ∧
  (slot k (imageStatus (page (mount s))) = removed ↔
     slot k (Store.images s) = None ∨ slot k (Store.images s) = Some []).
Proof.
  rewrite mount_imageStatus.
  split; [apply initialImageStatus_initial |].
  rewrite initialImageStatus_removed.
  destruct (slot k (Store.images s)) as [[|c url] |]; simpl.
  - split; [by right | done].
  - split; [done | by intros [Heq | Heq]].
  - split; [by left | done].
Qed.

(** ** Saving *)


Lemma recordToSave_result env s st :
  recordToSave env s st = Throw ∨
  ∃ images,
    recordToSave env s st =
      Ok {| Store.p_profile := Some (profile st);
            Store.p_portfolios := Some (portfolioItems st);
            Store.p_images := Some images |}.
Proof.
  unfold recordToSave.
  destruct (compressed env (s_background (files st))) as [cb |]; simpl;
    [| by left].
  destruct (compressed env (s_profile (files st))) as [cp |]; simpl;
    [| by left].
  destruct (toSave env cb _ _) as [bg |]; simpl; [| by left].
  destruct (toSave env cp _ _) as [pf |]; simpl; [| by left].
  right. by eexists.
Qed.

Lemma recordToSave_untouched env s st :
  files st = mkSlots None None →
  imageStatus st = mkSlots initial initial →
  profile st = Store.profile s →
  portfolioItems st = Store.portfolios s →
  recordToSave env s st = Ok (wholeRecord s).
Proof.
  intros Hf Hi Hp Hl. unfold recordToSave, wholeRecord.
  rewrite Hf, Hi, Hp, Hl. simpl. by destruct (Store.images s).
Qed.

Lemma setPortfolioData_wholeRecord s :
  Store.setPortfolioData (wholeRecord s) s = s.
Proof. by destruct s. Qed.

Lemma saveChanges_valid env s st :
  isFormValid st = true →
  saveChanges env s st =
    match recordToSave env s st with
    | Ok data =>
        (Store.setPortfolioData data s,
         setIsSaving false
           (setNotification (mkToast true "Portfolio Saved!")
              (setIsSaving true st)),
         [StoreSet data; SetTimeout HideNotification 2000])
    | Throw => (s, setIsSaving false (setIsSaving true st), saveFailedAlert)
    end.
Proof. intros Hv. unfold saveChanges. by rewrite Hv. Qed.

Lemma saveChanges_store env s st :
  (saveChanges env s st).1.1 = s ∨
  ∃ images,
    (saveChanges env s st).1.1 =
      {| Store.profile := profile st;
         Store.portfolios := portfolioItems st;
         Store.images := images |}.
Proof.
  destruct (isFormValid st) eqn:Hv.
  - rewrite saveChanges_valid by done.
    destruct (recordToSave_result env s st) as [-> | [images ->]];
      [by left |].
    right. by exists images.
  - rewrite saveChanges_invalid by done. by left.
Qed.

Lemma saveChanges_draft env s st :
  draft (saveChanges env s st).1.2 = draft st.
Proof.
  destruct (isFormValid st) eqn:Hv.
  - rewrite saveChanges_valid by done.
    by destruct (recordToSave env s st).
  - by rewrite saveChanges_invalid.
Qed.

(** C3: when the validity flag is false, [saveChanges] raises the
    validation alert and nothing else: the store is the same, no write to
    it is among the effects, and the page, with its whole draft, is the
    same. *)
Theorem save_refused (env : Env) (s : Store.PortfolioState)
    (st : PageState) :
  isFormValid st = false →
  ∃ eff,
    saveChanges env s st = (s, st, eff) ∧
    eff = validationAlert ∧
    ∀ data, StoreSet data ∉ eff.
Proof.
  intros Hv. exists validationAlert.
  split; [by apply saveChanges_invalid |]. split; [done |].
  intros data Hin. unfold validationAlert in Hin.
  apply list_elem_of_singleton in Hin. discriminate Hin.
Qed.

Lemma save_refused_witness :
  ∃ eff,
    saveChanges envOk (store freshApp) (page freshApp) =
      (store freshApp, page freshApp, eff) ∧
    eff = validationAlert ∧
    ∀ data, StoreSet data ∉ eff.
Proof.
  apply (save_refused envOk (store freshApp) (page freshApp)).
  by vm_compute.
Defined.



(** ** The entry list *)

Lemma filter_all {A} (P : A → Prop) `{!∀ x, Decision (P x)} (l : list A) :
  Forall P l → filter P l = l.
Proof.
  induction 1 as [|x l Hx _ IH]; [done |].
  by rewrite filter_cons_True, IH.
Qed.

Lemma setItemField_get fld v item :
  getItemField fld (setItemField fld v item) = v.
Proof. by destruct fld. Qed.

Lemma setItemField_get_ne fld fld' v item :
  fld' ≠ fld →
  getItemField fld' (setItemField fld v item) = getItemField fld' item.
Proof. by destruct fld, fld'. Qed.

Lemma setItemField_id fld v item : id (setItemField fld v item) = id item.
Proof. by destruct fld. Qed.

Lemma setImage_portfolioItems env k fileOrNull box st :
  portfolioItems (setImage env k fileOrNull box st).1.2 = portfolioItems st.
Proof.
  by destruct (setImage_page env k fileOrNull box st) as [-> | ->].
Qed.

Lemma addPortfolioItem_length now st :
  (length (portfolioItems st) ≤ 10)%nat →
  (length (portfolioItems (addPortfolioItem now st).1) ≤ 10)%nat.
Proof.
  intros Hle. unfold addPortfolioItem. case_bool_decide; simpl; [done |].
  rewrite length_app. simpl. lia.
Qed.

Lemma render_withinLimit before a :
  withinLimit a → withinLimit (render before a).
Proof. done. Qed.

Lemma step_withinLimit env ev a :
  withinLimit a → withinLimit (step env a ev).1.
Proof.
  intros (Hp & Hs & Hq). unfold step.
  destruct ev as [ | i fld v | now | i | k file | k | | n | t].
  - by apply render_withinLimit.
  - apply render_withinLimit. split; [| done]. simpl.
    by rewrite length_fmap.
  - pose proof (addPortfolioItem_length now (page a) Hp) as Hadd.
    simpl. destruct (addPortfolioItem now (page a)) as [p eff].
    by apply render_withinLimit.
  - apply render_withinLimit. split; [| done]. simpl.
    etrans; [apply length_filter | done].
  - pose proof (setImage_portfolioItems env k (Some file) (slot k (boxes a))
                  (page a)) as Hitems.
    simpl in *. destruct (FileUploadBox.handleFile _ _ _ _ _ _) as [[b p] eff].
    apply render_withinLimit. split; [| done]. simpl in *. by rewrite Hitems.
  - by apply render_withinLimit.
  - simpl. unfold clickSave.
    destruct (isFormValid (page a) && awaits (page a)).
    + apply render_withinLimit. split; [done |]. split; [done |]. simpl.
      apply Forall_app. split; [done |]. by apply Forall_singleton.
    + pose proof (saveChanges_store env (store a) (page a)) as Hstore.
      pose proof (saveChanges_draft env (store a) (page a)) as Hdraft.
      destruct (saveChanges env (store a) (page a)) as [[s p] eff].
      simpl in *. apply render_withinLimit.
      injection Hdraft as _ Hitems _ _.
      split; simpl; [by rewrite Hitems |]. split; [| done].
      by destruct Hstore as [-> | [images ->]].
  - simpl. unfold settle.
    destruct (pending a !! n) as [p |] eqn:Hn;
      [| by apply render_withinLimit].
    pose proof (Forall_lookup_1 _ _ _ _ Hq Hn) as Hlen. simpl in Hlen.
    assert (Forall (fun p => (length (portfolioItems (closedPage p)) ≤ 10)%nat)
              (delete n (pending a))) as Hrest
      by (by apply Forall_delete).
    destruct (recordToSave_result env (closedStore p) (closedPage p))
      as [-> | [images ->]];
      apply render_withinLimit; (split; [| split; [| done]]); simpl;
      by destruct (mounted p).
  - destruct t as [k | |]; try by apply render_withinLimit.
    apply render_withinLimit. split; [done |]. split; [done |]. simpl.
    apply Forall_fmap. by eapply Forall_impl.
Qed.

Lemma run_withinLimit evs : ∀ a, withinLimit a → withinLimit (run a evs).
Proof.
  induction evs as [|[env ev] evs IH]; intros a Ha; simpl; [done |].
  apply IH. by apply step_withinLimit.
Qed.

(** C5: the draft of a fresh install, and every draft reached from it
    by any events, holds at most ten entries; a draft opened on a store of
    at most ten entries has at most ten, and every event keeps the draft
    and the store within ten entries; and [addPortfolioItem] on a draft of
    ten entries (or more) raises the alert and returns the page as it
    was. *)
Theorem entries_at_most_ten :
  (∀ evs, (length (portfolioItems (page (run freshApp evs))) ≤ 10)%nat) ∧
  (∀ s, (length (Store.portfolios s) ≤ 10)%nat → withinLimit (mount s)) ∧
  (∀ env a ev, withinLimit a → withinLimit (step env a ev).1) ∧
  (∀ now st,
     (10 ≤ length (portfolioItems st))%nat →
     addPortfolioItem now st = (st, limitAlert)) ∧
  (∀ now st,
     (length (portfolioItems st) < 10)%nat →
     addPortfolioItem now st =
       (setPortfolioItems (fun prev => prev ++ [blankItem now]) st, [])).
Proof.
  split; [| split; [| split; [| split]]].
  - intros evs. apply (run_withinLimit evs freshApp).
    split; [simpl; lia |]. split; [simpl; lia | constructor].
  - intros s Hs. split; [done |]. split; [done | constructor].
  - intros env a ev. apply step_withinLimit.
  - intros now st Hfull. unfold addPortfolioItem.
    by rewrite bool_decide_eq_true_2.
  - intros now st Hroom. unfold addPortfolioItem.
    rewrite bool_decide_eq_false_2; [done | lia].
Qed.

Lemma entries_at_most_ten_witness :
  addPortfolioItem 1751600000000 draftFull = (draftFull, limitAlert).
Proof.
  destruct entries_at_most_ten as (_ & _ & _ & Hfull & _).
  apply (Hfull 1751600000000 draftFull). simpl. lia.
Defined.

(** C9: [handlePortfolioChange] keeps the length and the order of the
    list: the entry at each position stays where it is, with the named
    field replaced if its id is the given one and untouched otherwise;
    replacing a field changes neither the id nor any other field; with no
    entry of that id the list is the same; nothing else of the draft
    changes.  [removePortfolioItem] keeps, in their order, exactly the
    entries of another id: an entry alone in having the id is cut out from
    between its neighbours, and with no entry of that id the list is the
    same. *)
Theorem entry_edit_frame (i : Z) (fld : ItemField) (v : jsstring)
    (st : PageState) :
  let edited := handlePortfolioChange i fld v st in
  let pruned := removePortfolioItem i st in
  length (portfolioItems edited) = length (portfolioItems st) ∧
  (∀ n item,
     portfolioItems st !! n = Some item →
     portfolioItems edited !! n =
       Some (if decide (id item = i) then setItemField fld v item
             else item)) ∧
  (∀ item,
     id (setItemField fld v item) = id item ∧
     getItemField fld (setItemField fld v item) = v ∧
     ∀ fld', fld' ≠ fld →
       getItemField fld' (setItemField fld v item) = getItemField fld' item) ∧
  (i ∉ id <$> portfolioItems st → edited = st) ∧
  (profile edited, files edited, imageStatus edited) =
    (profile st, files st, imageStatus st) ∧
  portfolioItems pruned `sublist_of` portfolioItems st ∧
  (∀ item,
     item ∈ portfolioItems pruned ↔ item ∈ portfolioItems st ∧ id item ≠ i) ∧
  (∀ before item after,
     portfolioItems st = before ++ item :: after →
     id item = i → i ∉ id <$> before → i ∉ id <$> after →
     portfolioItems pruned = before ++ after) ∧
  (i ∉ id <$> portfolioItems st → pruned = st) ∧
  (profile pruned, files pruned, imageStatus pruned) =
    (profile st, files st, imageStatus st).
Proof.
  assert (∀ l : list PortfolioItem,
            i ∉ id <$> l → Forall (fun item => id item ≠ i) l) as Hother.
  { intros l Hnot. apply Forall_forall. intros item Hin Heq.
    apply Hnot. apply list_elem_of_fmap. by exists item. }
  simpl.
  split; [apply length_fmap |].
  split.
  { intros n item Hn. rewrite list_lookup_fmap, Hn. simpl.
    by destruct (decide (id item = i));
      [rewrite bool_decide_eq_true_2 | rewrite bool_decide_eq_false_2]. }
  split.
  { intros item. split; [apply setItemField_id |].
    split; [apply setItemField_get |].
    intros fld' Hfld. by apply setItemField_get_ne. }
  split.
  { intros Hnot. destruct st as [p items f s e valid n saving].
    unfold handlePortfolioChange, setPortfolioItems. simpl in *. f_equal.
    pose proof (Hother items Hnot) as Hall. clear Hnot Hother.
    induction Hall as [|item items Hitem _ IH]; [done |].
    rewrite fmap_cons, IH. by rewrite bool_decide_eq_false_2. }
  split; [done |].
  split; [apply sublist_filter |].
  split.
  { intros item. rewrite list_elem_of_filter. tauto. }
  split.
  { intros before item after Hsplit Hid Hb Ha. rewrite Hsplit.
    rewrite filter_app, filter_cons_False by tauto.
    by rewrite !filter_all by by apply Hother. }
  split; [| done].
  intros Hnot. destruct st as [p items f s e valid n saving].
  unfold removePortfolioItem, setPortfolioItems. simpl in *. f_equal.
  apply filter_all. by apply Hother.
Qed.

Lemma entry_edit_frame_witness :
  portfolioItems
    (removePortfolioItem 1 (mountPage Store.placeholderData)) = [] ++ [].
Proof.
  destruct (entry_edit_frame 1 f_company (lit "Initech")
              (mountPage Store.placeholderData))
    as (_ & _ & _ & _ & _ & _ & _ & Hcut & _).
  eapply (Hcut [] _ []).
  - reflexivity.
  - reflexivity.
  - apply not_elem_of_nil.
  - apply not_elem_of_nil.
Defined.

(** * Further properties of the workflow *)

(** ** What a handler can do to the slots, the boxes and the store *)

Lemma recordToSave_images env s st data :
  recordToSave env s st = Ok data →
  ∃ images,
    data = {| Store.p_profile := Some (profile st);
              Store.p_portfolios := Some (portfolioItems st);
              Store.p_images := Some images |} ∧
    ∀ k,
      match slot k (files st) with
      | Some f =>
          ∃ f' url, imageCompression env f options = Ok f' ∧
                    fileToDataUrl env f' = Ok url ∧
                    slot k images = Some url
      | None =>
          slot k images =
            if bool_decide (slot k (imageStatus st) = initial)
            then slot k (Store.images s) else None
      end.
Proof.
  unfold recordToSave.
  destruct (s_background (files st)) as [fb |] eqn:Hfb,
           (s_profile (files st)) as [fp |] eqn:Hfp; simpl;
    repeat match goal with
    | |- context [imageCompression env ?f options] =>
        let H := fresh "Hc" in
        destruct (imageCompression env f options) eqn:H; simpl
    | |- context [fileToDataUrl env ?f] =>
        let H := fresh "Hu" in
        destruct (fileToDataUrl env f) eqn:H; simpl
    end;
    try discriminate;
    intros [= <-]; eexists; (split; [reflexivity |]);
    intros [|]; simpl; rewrite ?Hfb, ?Hfp; eauto.
Qed.

Lemma fileToDataUrl_nonempty env f url :
  fileToDataUrl env f = Ok url → url ≠ [].
Proof.
  unfold fileToDataUrl. destruct (readAsDataURL env f); simpl; [| done].
  by intros [= <-].
Qed.

Lemma rendered_valid st :
  rendered st → isFormValid st = true → noSlotRemoved st.
Proof.
  intros Hr Hv. rewrite <- Hr in Hv.
  by apply isFormValid_validateForm in Hv as [_ Hslots].
Qed.

(** What a save that closed over a sound page hands to the store: for
    each slot a non-empty image, the stored one if the slot was [initial]
    and an encoded file otherwise. *)
Lemma closure_saved_images env p data :
  closureOk p →
  recordToSave env (closedStore p) (closedPage p) = Ok data →
  ∃ images,
    data = {| Store.p_profile := Some (profile (closedPage p));
              Store.p_portfolios := Some (portfolioItems (closedPage p));
              Store.p_images := Some images |} ∧
    ∀ k, ∃ url,
      slot k images = Some url ∧ url ≠ [] ∧
      (slot k (imageStatus (closedPage p)) = initial →
       slot k (Store.images (closedStore p)) = Some url) ∧
      (slot k (imageStatus (closedPage p)) ≠ initial →
       ∃ f', fileToDataUrl env f' = Ok url).
Proof.
  intros (Hv & Hr & Hp & Hi) Hrec.
  destruct (recordToSave_images env _ _ _ Hrec) as (images & -> & Him).
  exists images. split; [done |]. intros k. specialize (Him k).
  assert (slot k (imageStatus (closedPage p)) ≠ removed) as Hk.
  { destruct (rendered_valid _ Hr Hv) as [Hb Hpf]. by destruct k. }
  destruct (slot k (files (closedPage p))) as [f |] eqn:Hf.
  - destruct Him as (f' & url & _ & Hu & Hurl). exists url.
    split; [done |]. split; [by apply (fileToDataUrl_nonempty env f') |].
    assert (slot k (imageStatus (closedPage p)) = new) as Hnew
      by (apply Hp; by rewrite Hf).
    split; [congruence | intros _; by exists f'].
  - assert (slot k (imageStatus (closedPage p)) = initial) as Hinit.
    { destruct (slot k (imageStatus (closedPage p))) eqn:Hst;
        [done | | done].
      apply Hp in Hst. rewrite Hf in Hst. by destruct Hst. }
    rewrite bool_decide_eq_true_2 in Him by done.
    specialize (Hi k Hinit).
    destruct (slot k (Store.images (closedStore p))) as [[|c url] |] eqn:Hs;
      try discriminate Hi.
    exists (c :: url). by rewrite Him.
Qed.

(** The three things a handler can do: leave the page; put a slot
    through [handleFileChange]; or leave the slots alone, the store
    changing only by the store call of a save that closed over the page
    of a click that passed the guard, and the saves in flight losing one
    that settles or gaining the one a click suspends. *)
Lemma handle_outcome env ev a :
  (handle env ev a).1 = remount a ∨
  (∃ k fileOrNull,
     store (handle env ev a).1 = store a ∧
     pending (handle env ev a).1 = pending a ∧
     page (handle env ev a).1 = handleFileChange k fileOrNull (page a)) ∨
  (files (page (handle env ev a).1) = files (page a) ∧
   imageStatus (page (handle env ev a).1) = imageStatus (page a) ∧
   (store (handle env ev a).1 = store a ∨
    ∃ p data,
      closedOver a ev = Some p ∧
      (p = mkPending (store a) (page a) true ∧ isFormValid (page a) = true ∨
       p ∈ pending a) ∧
      recordToSave env (closedStore p) (closedPage p) = Ok data ∧
      store (handle env ev a).1 = Store.setPortfolioData data (store a)) ∧
   (pending (handle env ev a).1 = pending a ∨
    (∃ n, pending (handle env ev a).1 = delete n (pending a)) ∨
    isFormValid (page a) = true ∧
    pending (handle env ev a).1 =
      pending a ++ [mkPending (store a) (page a) true])).
Proof.
  destruct ev as [ | | now | | k file | k | | n | t]; simpl.
  - right; right. by repeat split; try left.
  - right; right. by repeat split; try left.
  - right; right. unfold addPortfolioItem.
    case_bool_decide; by repeat split; try left.
  - right; right. by repeat split; try left.
  - destruct (decide (accepted file)) as [Hacc | Hrej].
    + right; left. exists k, (Some file).
      by rewrite handleFile_accepted.
    + right; right.
      destruct (handleFile_rejected handleFileChange env k file
                  (slot k (boxes a)) (page a) Hrej) as [msg ->]. simpl.
      by repeat split; try left.
  - right; left. by exists k, None.
  - right; right. unfold clickSave.
    destruct (isFormValid (page a) && awaits (page a)) eqn:Hgo.
    + apply andb_true_iff in Hgo as [Hv _]. simpl.
      split; [done |]. split; [done |]. split; [by left |].
      right; right. by split.
    + destruct (isFormValid (page a)) eqn:Hv.
      * rewrite saveChanges_valid by done.
        destruct (recordToSave env (store a) (page a)) as [data |] eqn:Hrec;
          simpl.
        -- split; [done |]. split; [done |]. split; [| by left].
           right. exists (mkPending (store a) (page a) true), data.
           split; [done |]. split; [by left |]. by split.
        -- by repeat split; try left.
      * rewrite saveChanges_invalid by done. simpl.
        by repeat split; try left.
  - right; right. unfold settle.
    destruct (pending a !! n) as [p |] eqn:Hn;
      [| by repeat split; try left].
    destruct (recordToSave env (closedStore p) (closedPage p)) as [data |]
      eqn:Hrec; simpl.
    + split; [by destruct (mounted p) |].
      split; [by destruct (mounted p) |]. split.
      * right. exists p, data. split; [done |]. split; [| by split].
        right. by eapply list_elem_of_lookup_2.
      * right; left. by exists n.
    + split; [by destruct (mounted p) |].
      split; [by destruct (mounted p) |]. split; [by left |].
      right; left. by exists n.
  - destruct t as [k | |]; simpl.
    + right; right. by repeat split; try left.
    + right; right. by repeat split; try left.
    + by left.
Qed.

(** ** Invariants of the page next to the store and the saves in flight *)

Lemma handleFileChange_files k file st :
  slot k (files (handleFileChange k file st)) = file.
Proof. unfold handleFileChange. simpl. apply slot_setSlot_eq. Qed.

Lemma handleFileChange_files_ne k k' file st :
  k ≠ k' →
  slot k' (files (handleFileChange k file st)) = slot k' (files st).
Proof. unfold handleFileChange. simpl. apply slot_setSlot_ne. Qed.

Lemma handleFileChange_pending k file st :
  pendingIffNew st → pendingIffNew (handleFileChange k file st).
Proof.
  intros Hst k'. destruct (decide (k = k')) as [<- | Hk].
  - rewrite handleFileChange_files, handleFileChange_status.
    destruct file; split; try done; by intros [? ?].
  - rewrite handleFileChange_files_ne, handleFileChange_status_ne by done.
    apply Hst.
Qed.

Lemma initPage_pending s : pendingIffNew (initPage s).
Proof.
  intros k. destruct k; simpl; unfold initialImageStatus;
    (split; [by intros [? ?] | by destruct (truthy_opt _)]).
Qed.

Lemma syncInitial_same image box :
  FileUploadBox.syncInitial image image box = box.
Proof. unfold FileUploadBox.syncInitial. by rewrite decide_True. Qed.

Lemma render_boxes before a k :
  slot k (boxes (render before a)) =
    FileUploadBox.syncInitial (slot k (Store.images before))
      (slot k (Store.images (store a))) (slot k (boxes a)).
Proof. by destruct k. Qed.

Lemma mount_initialIsStored s : initialIsStored (mount s).
Proof.
  intros k. rewrite mount_imageStatus. unfold initialImageStatus.
  by destruct (truthy_opt _).
Qed.

Lemma mount_consistent s : consistent (mount s).
Proof.
  split; [apply initPage_pending |].
  split; [apply mount_initialIsStored |]. split; [done | constructor].
Qed.

Lemma render_consistent before a :
  pendingIffNew (page a) → initialIsStored a →
  Forall closureOk (pending a) →
  consistent (render before a).
Proof.
  intros Hp Hi Hq. split; [exact Hp |]. split; [exact Hi |].
  split; [apply validateForm_idem | exact Hq].
Qed.

Lemma consistent_closure a :
  consistent a → isFormValid (page a) = true →
  closureOk (mkPending (store a) (page a) true).
Proof.
  intros (Hp & Hi & Hr & _) Hv. split; [exact Hv |].
  split; [exact Hr |]. split; [exact Hp | exact Hi].
Qed.

Lemma step_consistent env ev a : consistent a → consistent (step env a ev).1.
Proof.
  intros Hcons. pose proof Hcons as (Hp & Hi & Hr & Hq). unfold step.
  pose proof (handle_outcome env ev a) as Hout.
  destruct (handle env ev a) as [a' eff]. simpl in *.
  destruct Hout as [-> | [(k & file & Hs & Hpend & Hpage)
                         | (Hf & Hst & Hstore & Hpend)]].
  - apply render_consistent.
    + apply initPage_pending.
    + apply (mount_initialIsStored (store a)).
    + simpl. apply Forall_fmap. by eapply Forall_impl.
  - apply render_consistent.
    + rewrite Hpage. by apply handleFileChange_pending.
    + intros k'. rewrite Hpage, Hs. intros Hk'.
      destruct (decide (k = k')) as [<- | Hne].
      * rewrite handleFileChange_status in Hk'. by destruct file.
      * rewrite handleFileChange_status_ne in Hk' by done. by apply Hi.
    + by rewrite Hpend.
  - apply render_consistent.
    + intros k. unfold pendingIffNew in Hp. by rewrite Hf, Hst.
    + intros k. rewrite Hst. intros Hk.
      destruct Hstore as [-> | (p & data & _ & Hsrc & Hrec & ->)];
        [by apply Hi |].
      assert (closureOk p) as Hok.
      { destruct Hsrc as [[-> Hv] | Hin].
        - by apply consistent_closure.
        - rewrite Forall_forall in Hq. by apply Hq. }
      destruct (closure_saved_images env p data Hok Hrec)
        as (images & -> & Him).
      destruct (Him k) as (url & Hurl & Hne & _). simpl. rewrite Hurl.
      by destruct url.
    + destruct Hpend as [-> | [[n ->] | [Hv ->]]].
      * done.
      * by apply Forall_delete.
      * apply Forall_app. split; [done |]. apply Forall_singleton.
        by apply consistent_closure.
Qed.

Lemma run_consistent evs : ∀ a, consistent a → consistent (run a evs).
Proof.
  induction evs as [|[env ev] evs IH]; intros a Ha; simpl; [done |].
  apply IH. by apply step_consistent.
Qed.

(** ** The errors map, written by validation and read by the forms *)

Lemma lookup_require c k m (e : FormErrors) k' :
  require c k m e !! k' =
    if c && bool_decide (k = k') then Some m else e !! k'.
Proof.
  unfold require. destruct c; simpl; [| done].
  case_bool_decide as Hk.
  - subst. apply lookup_insert_eq.
  - by apply lookup_insert_ne.
Qed.

Lemma itemKey_inj fld fld' i i' :
  itemKey fld i = itemKey fld' i' → fld = fld' ∧ i = i'.
Proof.
  destruct fld, fld'; simpl; intros [= Hp]; split; try done;
    by apply (inj pretty).
Qed.

Lemma itemKey_profileKey fld i pf : itemKey fld i ≠ profileKey pf.
Proof. by destruct fld, pf. Qed.

Lemma profileKey_inj pf pf' : profileKey pf = profileKey pf' → pf = pf'.
Proof. by destruct pf, pf'. Qed.

Lemma itemFieldError_key fld item (errs : FormErrors) :
  itemFieldError fld item errs = errs !! itemKey fld (id item).
Proof. by destruct fld. Qed.

Lemma profileFieldError_key fld (errs : FormErrors) :
  profileFieldError fld errs = errs !! profileKey fld.
Proof. by destruct fld. Qed.

(** [itemErrors] is one [require] per field, in the order of the form. *)
Lemma itemErrors_fields (e : FormErrors) item :
  itemErrors e item =
    foldl (fun e fld =>
             require (fieldMissing fld item) (itemKey fld (id item))
               (fieldMessage fld) e)
      e [f_position; f_company; f_startDate; f_endDate; f_item_description].
Proof. reflexivity. Qed.

Lemma lookup_require_item fld' item (e : FormErrors) fld i :
  require (fieldMissing fld' item) (itemKey fld' (id item))
    (fieldMessage fld') e !! itemKey fld i =
    if bool_decide (fld' = fld ∧ id item = i) && fieldMissing fld item
    then Some (fieldMessage fld) else e !! itemKey fld i.
Proof.
  rewrite lookup_require.
  destruct (decide (fld' = fld ∧ id item = i)) as [[-> <-] | Hne].
  - rewrite !bool_decide_eq_true_2 by done.
    by destruct (fieldMissing fld item).
  - rewrite (bool_decide_eq_false_2 (_ ∧ _)) by done.
    rewrite bool_decide_eq_false_2, andb_false_r; [done |].
    intros Hk. by apply itemKey_inj in Hk.
Qed.

Lemma lookup_itemErrors (e : FormErrors) item fld i :
  itemErrors e item !! itemKey fld i =
    if bool_decide (id item = i) && fieldMissing fld item
    then Some (fieldMessage fld) else e !! itemKey fld i.
Proof.
  rewrite itemErrors_fields. cbn [foldl]. rewrite !lookup_require_item.
  destruct (decide (id item = i)) as [Hi | Hi].
  - rewrite (bool_decide_eq_true_2 (id item = i)) by done. simpl.
    destruct fld; simpl;
      repeat match goal with
      | |- context [bool_decide (?a = ?b ∧ _)] =>
          first [ rewrite (bool_decide_eq_true_2 (a = b ∧ _)) by done
                | rewrite (bool_decide_eq_false_2 (a = b ∧ _))
                    by (by intros [? _]) ]; simpl
      end;
      by repeat match goal with
         | |- context [if ?c then _ else _] => destruct c
         end.
  - rewrite (bool_decide_eq_false_2 (id item = i)) by done. simpl.
    by repeat (rewrite (bool_decide_eq_false_2 (_ ∧ _)) by (by intros [_ ?]);
               simpl).
Qed.

Lemma lookup_itemErrors_profile (e : FormErrors) item pf :
  itemErrors e item !! profileKey pf = e !! profileKey pf.
Proof.
  rewrite itemErrors_fields. cbn [foldl]. rewrite !lookup_require.
  by repeat (rewrite (bool_decide_eq_false_2 (itemKey _ _ = _))
               by apply itemKey_profileKey;
             rewrite andb_false_r).
Qed.

Lemma lookup_foldl_itemErrors items : ∀ (e : FormErrors) fld i,
  foldl itemErrors e items !! itemKey fld i =
    if bool_decide (someMissing fld i items) then Some (fieldMessage fld)
    else e !! itemKey fld i.
Proof.
  unfold someMissing.
  induction items as [|item items IH]; intros e fld i; cbn [foldl].
  - by rewrite bool_decide_eq_false_2 by by intros ?%Exists_nil.
  - rewrite IH, lookup_itemErrors.
    destruct (decide (Exists (fun item => id item = i ∧
                                fieldMissing fld item = true) items))
      as [Hex | Hex].
    + assert (Exists (fun item => id item = i ∧ fieldMissing fld item = true)
                (item :: items)) as Hex' by (by apply Exists_cons_tl).
      by rewrite (bool_decide_eq_true_2 _ Hex'), (bool_decide_eq_true_2 _ Hex).
    + rewrite (bool_decide_eq_false_2 _ Hex).
      destruct (decide (id item = i ∧ fieldMissing fld item = true))
        as [[Hi Hm] | Hno].
      * assert (Exists (fun item => id item = i ∧
                          fieldMissing fld item = true) (item :: items))
          as Hex' by (by apply Exists_cons_hd).
        by rewrite (bool_decide_eq_true_2 _ Hex'),
             (bool_decide_eq_true_2 _ Hi), Hm.
      * assert (¬ Exists (fun item => id item = i ∧
                            fieldMissing fld item = true) (item :: items))
          as Hex' by (intros [? | ?]%Exists_cons; tauto).
        rewrite (bool_decide_eq_false_2 _ Hex').
        case_bool_decide; simpl; [| done].
        destruct (fieldMissing fld item); [| done]. tauto.
Qed.

Lemma lookup_foldl_itemErrors_profile items : ∀ (e : FormErrors) pf,
  foldl itemErrors e items !! profileKey pf = e !! profileKey pf.
Proof.
  induction items as [|item items IH]; intros e pf; simpl; [done |].
  by rewrite IH, lookup_itemErrors_profile.
Qed.

Lemma lookup_profileErrors p pf :
  profileErrors p ∅ !! profileKey pf =
    if blank (getProfileField pf p) then Some (profileMessage pf) else None.
Proof.
  unfold profileErrors. rewrite !lookup_require, lookup_empty.
  destruct pf; simpl;
    repeat (first [ rewrite bool_decide_eq_true_2 by done
                  | rewrite bool_decide_eq_false_2 by done ]);
    rewrite ?andb_false_r, ?andb_true_r;
    by repeat match goal with
       | |- context [if ?c then _ else _] => destruct c
       end.
Qed.

Lemma lookup_profileErrors_item p fld i :
  profileErrors p ∅ !! itemKey fld i = None.
Proof.
  unfold profileErrors. rewrite !lookup_require, lookup_empty.
  change "profile_name" with (profileKey f_name).
  change "profile_title" with (profileKey f_title).
  change "profile_description" with (profileKey f_description).
  by repeat (rewrite (bool_decide_eq_false_2 (profileKey _ = _))
               by (intros Hk; by apply (itemKey_profileKey fld i) in Hk
                   || (symmetry in Hk; by apply itemKey_profileKey in Hk));
             rewrite andb_false_r).
Qed.

Lemma NoDup_fmap_eq {A B} (f : A → B) (l : list A) x y :
  NoDup (f <$> l) → x ∈ l → y ∈ l → f x = f y → x = y.
Proof.
  induction l as [|z l IH]; simpl; [by intros _ ?%elem_of_nil |].
  rewrite NoDup_cons, !elem_of_cons. intros [Hz Hl] [-> | Hx] [-> | Hy] Hf.
  - done.
  - destruct Hz. rewrite Hf. apply list_elem_of_fmap. by exists y.
  - destruct Hz. rewrite <- Hf. apply list_elem_of_fmap. by exists x.
  - by apply IH.
Qed.

(** X4: the error that [PortfolioItemForm] shows beside a field of an
    entry is the field's message exactly when some entry of the list with
    the same id fails the test on that field, and there is none
    otherwise; when the ids of the list are distinct, it is there exactly
    when that very entry fails the test. *)
Theorem item_error_shown (p : ProfileData) (items : list PortfolioItem)
    (fld : ItemField) (item : PortfolioItem) :
  itemFieldError fld item (formErrors p items) =
    (if bool_decide (someMissing fld (id item) items)
     then Some (fieldMessage fld) else None) ∧
  (NoDup (id <$> items) → item ∈ items →
   itemFieldError fld item (formErrors p items) =
     if fieldMissing fld item then Some (fieldMessage fld) else None).
Proof.
  assert (itemFieldError fld item (formErrors p items) =
            if bool_decide (someMissing fld (id item) items)
            then Some (fieldMessage fld) else None) as Hshown.
  { rewrite itemFieldError_key. unfold formErrors.
    by rewrite lookup_foldl_itemErrors, lookup_profileErrors_item. }
  split; [done |]. intros Hnd Hin. rewrite Hshown.
  destruct (fieldMissing fld item) eqn:Hm.
  - rewrite bool_decide_eq_true_2; [done |].
    apply Exists_exists. by exists item.
  - rewrite bool_decide_eq_false_2; [done |].
    intros (item' & Hin' & Hid & Hm')%Exists_exists.
    assert (item' = item) as -> by by apply (NoDup_fmap_eq id items).
    congruence.
Qed.

Lemma item_error_shown_witness :
  itemFieldError f_company (blankItem 7)
    (formErrors (Store.profile Store.placeholderData) [blankItem 7]) =
    if fieldMissing f_company (blankItem 7)
    then Some (fieldMessage f_company) else None.
Proof.
  apply (item_error_shown (Store.profile Store.placeholderData)
           [blankItem 7] f_company (blankItem 7)).
  - apply NoDup_singleton.
  - apply list_elem_of_singleton. reflexivity.
Defined.

(** X5: the error that [ProfileForm] shows beside a profile field is the
    field's message exactly when the field is blank after trimming,
    whatever the entries are. *)
Theorem profile_error_shown (p : ProfileData) (items : list PortfolioItem)
    (fld : ProfileField) :
  profileFieldError fld (formErrors p items) =
    if blank (getProfileField fld p) then Some (profileMessage fld)
    else None.
Proof.
  rewrite profileFieldError_key. unfold formErrors.
  by rewrite lookup_foldl_itemErrors_profile, lookup_profileErrors.
Qed.

(** ** Editing the profile and adding an entry *)

Lemma setProfileField_get fld v p :
  getProfileField fld (setProfileField fld v p) = v.
Proof. by destruct fld. Qed.

Lemma setProfileField_get_ne fld fld' v p :
  fld' ≠ fld →
  getProfileField fld' (setProfileField fld v p) = getProfileField fld' p.
Proof. by destruct fld, fld'. Qed.

(** X6: typing into a profile field replaces that field and nothing
    else of the draft or the store; after the render the error beside the
    field is there exactly when the typed value is blank, and a blank
    value makes the form invalid. *)
Theorem profile_edit_frame (env : Env) (a : App) (fld : ProfileField)
    (v : jsstring) :
  let a' := (step env a (ProfileChange fld v)).1 in
  getProfileField fld (profile (page a')) = v ∧
  (∀ fld', fld' ≠ fld →
     getProfileField fld' (profile (page a')) =
       getProfileField fld' (profile (page a))) ∧
  (portfolioItems (page a'), files (page a'), imageStatus (page a')) =
    (portfolioItems (page a), files (page a), imageStatus (page a)) ∧
  store a' = store a ∧
  profileFieldError fld (errors (page a')) =
    (if blank v then Some (profileMessage fld) else None) ∧
  (blank v = true → isFormValid (page a') = false).
Proof.
  simpl.
  split; [apply setProfileField_get |].
  split; [intros fld' Hne; by apply setProfileField_get_ne |].
  split; [done |]. split; [done |].
  assert (profileFieldError fld
            (formErrors (setProfileField fld v (profile (page a)))
               (portfolioItems (page a))) =
          if blank v then Some (profileMessage fld) else None) as Herr.
  { rewrite profileFieldError_key. unfold formErrors.
    rewrite lookup_foldl_itemErrors_profile, lookup_profileErrors.
    by rewrite setProfileField_get. }
  split; [exact Herr |].
  intros Hblank. rewrite Hblank in Herr.
  rewrite !andb_false_iff. right. apply bool_decide_eq_false.
  rewrite map_size_empty_iff. intros Hempty.
  rewrite Hempty, profileFieldError_key, lookup_empty in Herr.
  discriminate Herr.
Qed.

Lemma profile_edit_frame_witness :
  isFormValid
    (page (step envOk (mount storeFilled) (ProfileChange f_name (lit " "))).1)
  = false.
Proof.
  apply (profile_edit_frame envOk (mount storeFilled) f_name (lit " ")).
  reflexivity.
Defined.

(** X7: with fewer than ten entries, the Add button appends one blank
    entry carrying the time of the click as its id, after the entries that
    were there; after the render every field of the new entry shows its
    error, the form is invalid and the Save button is disabled. *)
Theorem add_entry_invalidates (env : Env) (a : App) (now : Z) :
  (length (portfolioItems (page a)) < 10)%nat →
  let a' := (step env a (AddPortfolioItem now)).1 in
  portfolioItems (page a') = portfolioItems (page a) ++ [blankItem now] ∧
  (∀ fld,
     itemFieldError fld (blankItem now) (errors (page a')) =
       Some (fieldMessage fld)) ∧
  isFormValid (page a') = false ∧
  saveDisabled (page a') = true.
Proof.
  intros Hroom. unfold step. simpl. unfold addPortfolioItem.
  rewrite bool_decide_eq_false_2 by lia. simpl.
  assert (∀ fld,
            itemFieldError fld (blankItem now)
              (formErrors (profile (page a))
                 (portfolioItems (page a) ++ [blankItem now])) =
            Some (fieldMessage fld)) as Herr.
  { intros fld. rewrite itemFieldError_key. unfold formErrors.
    rewrite lookup_foldl_itemErrors, bool_decide_eq_true_2; [done |].
    apply Exists_app. right. apply Exists_cons_hd. by destruct fld. }
  assert (bool_decide
            (size (formErrors (profile (page a))
                     (portfolioItems (page a) ++ [blankItem now])) = 0%nat)
          = false) as Hsize.
  { apply bool_decide_eq_false. rewrite map_size_empty_iff. intros Hempty.
    specialize (Herr f_position).
    rewrite Hempty, itemFieldError_key, lookup_empty in Herr.
    discriminate Herr. }
  split; [done |]. split; [exact Herr |].
  unfold saveDisabled. simpl. rewrite Hsize, andb_false_r. by split.
Qed.

Lemma add_entry_invalidates_witness :
  isFormValid
    (page (step envOk (mount storeFilled) (AddPortfolioItem 1751600000000)).1)
  = false.
Proof.
  apply (add_entry_invalidates envOk (mount storeFilled) 1751600000000).
  simpl. lia.
Defined.

(** ** Pending files, previews and the store along a run *)

(** X1: in every state reached from an opened draft, a slot has a
    pending file exactly when its status is [new]. *)
Theorem pending_file_iff_new (s : Store.PortfolioState)
    (evs : list (Env * Event)) (k : SlotId) :
  is_Some (slot k (files (page (run (mount s) evs)))) ↔
  slot k (imageStatus (page (run (mount s) evs))) = new.
Proof.
  destruct (run_consistent evs (mount s) (mount_consistent s)) as (Hp & _).
  apply Hp.
Qed.

Ltac no_store_call :=
  let data := fresh "data" in
  let Hin := fresh "Hin" in
  intros [data Hin];
  repeat (apply elem_of_cons in Hin as [Hin | Hin]; [discriminate Hin |]);
  by apply elem_of_nil in Hin.

Lemma saved_here data eff : saved (StoreSet data :: eff).
Proof. exists data. apply list_elem_of_here. Qed.

(** An event either makes no store call and leaves the store as it
    was, or runs a save to its end: the save of the click itself, on a
    page that passed the guard, or a save that was in flight. *)
Lemma handle_store_cases env a ev :
  (¬ saved (handle env ev a).2 ∧ store (handle env ev a).1 = store a) ∨
  (saved (handle env ev a).2 ∧
   ∃ p data,
     closedOver a ev = Some p ∧
     (ev = SaveChanges → isFormValid (page a) = true) ∧
     (p = mkPending (store a) (page a) true ∧ isFormValid (page a) = true ∨
      p ∈ pending a) ∧
     recordToSave env (closedStore p) (closedPage p) = Ok data ∧
     store (handle env ev a).1 = Store.setPortfolioData data (store a)).
Proof.
  destruct ev as [ | | now | | k file | k | | n | t]; simpl.
  - left. split; [no_store_call | done].
  - left. split; [no_store_call | done].
  - left. unfold addPortfolioItem. case_bool_decide; simpl;
      (split; [no_store_call | done]).
  - left. split; [no_store_call | done].
  - left. destruct (decide (accepted file)) as [Hacc | Hrej].
    + rewrite handleFile_accepted by done. simpl.
      split; [no_store_call | done].
    + destruct (handleFile_rejected handleFileChange env k file
                  (slot k (boxes a)) (page a) Hrej) as [msg ->]. simpl.
      split; [no_store_call | done].
  - left. split; [| done].
    destruct (FileUploadBox.previewUrl (slot k (boxes a))) as [url |];
      [| no_store_call].
    destruct (truthy url && _); no_store_call.
  - unfold clickSave.
    destruct (isFormValid (page a) && awaits (page a)).
    + left. split; [no_store_call | done].
    + destruct (isFormValid (page a)) eqn:Hv.
      * rewrite saveChanges_valid by done.
        destruct (recordToSave env (store a) (page a)) as [data |] eqn:Hrec;
          simpl.
        -- right. split; [apply saved_here |].
           exists (mkPending (store a) (page a) true), data.
           split; [done |]. split; [done |]. split; [by left |]. by split.
        -- left. split; [unfold saveFailedAlert; no_store_call | done].
      * rewrite saveChanges_invalid by done. simpl.
        left. split; [unfold validationAlert; no_store_call | done].
  - unfold settle. destruct (pending a !! n) as [p |] eqn:Hn.
    + destruct (recordToSave env (closedStore p) (closedPage p)) as [data |]
        eqn:Hrec; simpl.
      * right. split; [apply saved_here |]. exists p, data.
        split; [done |]. split; [done |]. split; [| by split].
        right. by eapply list_elem_of_lookup_2.
      * left. split; [no_store_call | done].
    + left. split; [no_store_call | done].
  - left. destruct t; simpl; (split; [no_store_call | done]).
Qed.

Lemma step_store_cases env a ev :
  (¬ saved (step env a ev).2 ∧ store (step env a ev).1 = store a) ∨
  (saved (step env a ev).2 ∧
   ∃ p data,
     closedOver a ev = Some p ∧
     (ev = SaveChanges → isFormValid (page a) = true) ∧
     (p = mkPending (store a) (page a) true ∧ isFormValid (page a) = true ∨
      p ∈ pending a) ∧
     recordToSave env (closedStore p) (closedPage p) = Ok data ∧
     store (step env a ev).1 = Store.setPortfolioData data (store a)).
Proof.
  pose proof (handle_store_cases env a ev) as Hcases. unfold step.
  by destruct (handle env ev a) as [a' eff].
Qed.

(** What an event that makes the store call has stored. *)
Lemma step_saved env a ev :
  consistent a → saved (step env a ev).2 →
  ∃ p images,
    closedOver a ev = Some p ∧ closureOk p ∧
    store (step env a ev).1 =
      {| Store.profile := profile (closedPage p);
         Store.portfolios := portfolioItems (closedPage p);
         Store.images := images |} ∧
    ∀ k, ∃ url,
      slot k images = Some url ∧ url ≠ [] ∧
      (slot k (imageStatus (closedPage p)) = initial →
       slot k (Store.images (closedStore p)) = Some url) ∧
      (slot k (imageStatus (closedPage p)) ≠ initial →
       ∃ f', fileToDataUrl env f' = Ok url).
Proof.
  intros Hcons Hsaved.
  destruct (step_store_cases env a ev)
    as [[Hnot _] | (_ & p & data & Hclosed & _ & Hsrc & Hrec & Hstore)];
    [done |].
  assert (closureOk p) as Hok.
  { destruct Hsrc as [[-> Hv] | Hin].
    - by apply consistent_closure.
    - destruct Hcons as (_ & _ & _ & Hq).
      rewrite Forall_forall in Hq. by apply Hq. }
  destruct (closure_saved_images env p data Hok Hrec)
    as (images & -> & Him).
  exists p, images. by rewrite Hstore.
Qed.

(** X2: whenever an event in a state reached from an opened draft
    makes the store call, the store then holds a non-empty image for both
    slots, and for a slot that was [initial] on the page the save closed
    over it is the image of the store that page was rendered on. *)
Theorem saved_record_has_both_images (s : Store.PortfolioState)
    (evs : list (Env * Event)) (env : Env) (ev : Event) (k : SlotId) :
  saved (step env (run (mount s) evs) ev).2 →
  ∃ url,
    slot k (Store.images (store (step env (run (mount s) evs) ev).1))
      = Some url ∧
    url ≠ [] ∧
    ∀ p, closedOver (run (mount s) evs) ev = Some p →
         slot k (imageStatus (closedPage p)) = initial →
         slot k (Store.images (closedStore p)) = Some url.
Proof.
  pose proof (run_consistent evs (mount s) (mount_consistent s)) as Hcons.
  intros Hsaved.
  destruct (step_saved env _ ev Hcons Hsaved)
    as (p & images & Hclosed & _ & -> & Him).
  destruct (Him k) as (url & Hurl & Hne & Hinit & _).
  exists url. split; [done |]. split; [done |].
  intros p' Hp'. rewrite Hclosed in Hp'. by injection Hp' as <-.
Qed.

Lemma saved_record_has_both_images_witness :
  ∃ url,
    slot slot_background
      (Store.images (store (step envOk (run (mount storeFilled) [])
                              SaveChanges).1)) = Some url ∧
    url ≠ [] ∧
    ∀ p, closedOver (run (mount storeFilled) []) SaveChanges = Some p →
         slot slot_background (imageStatus (closedPage p)) = initial →
         slot slot_background (Store.images (closedStore p)) = Some url.
Proof.
  apply (saved_record_has_both_images storeFilled [] envOk SaveChanges
           slot_background).
  eexists. vm_compute. apply list_elem_of_here.
Defined.

(** X10: the store is written by nothing but a save that passed the
    validity guard: an event whose effects hold no store call leaves the
    store as it was; effects that hold one come from a click on Save on a
    page whose flag is true or from a save in flight that settles; and
    every save in flight in a state reached from an opened draft closed
    over a page whose flag was true. *)
Theorem store_changes_only_on_save (env : Env) (a : App) (ev : Event) :
  (¬ saved (step env a ev).2 → store (step env a ev).1 = store a) ∧
  (saved (step env a ev).2 →
   ev = SaveChanges ∧ isFormValid (page a) = true ∨
   ∃ n p, ev = Settle n ∧ pending a !! n = Some p) ∧
  (∀ s evs p,
     p ∈ pending (run (mount s) evs) → isFormValid (closedPage p) = true).
Proof.
  split; [| split].
  - intros Hnot.
    by destruct (step_store_cases env a ev) as [[_ Hs] | [Hsaved _]].
  - intros Hsaved.
    destruct (step_store_cases env a ev)
      as [[Hnot _] | (_ & p & data & Hclosed & Hclick & _)]; [done |].
    destruct ev; try discriminate Hclosed.
    + left. split; [done | by apply Hclick].
    + right. by exists n, p.
  - intros s evs p Hin.
    destruct (run_consistent evs (mount s) (mount_consistent s))
      as (_ & _ & _ & Hq).
    rewrite Forall_forall in Hq. by destruct (Hq p Hin) as [Hv _].
Qed.

(** ** The preview and the home page *)

Lemma handlePreview_images env s st :
  ∃ pv,
    previewData (handlePreview env s st) = Some pv ∧
    pv_profile pv = profile st ∧
    pv_portfolios pv = portfolioItems st ∧
    ∀ k, slot k (pv_images pv) =
           previewUrlFor env (slot k (imageStatus st)) (slot k (files st))
             (slot k (Store.images s)).
Proof.
  eexists. split; [reflexivity |]. split; [done |]. split; [done |].
  by intros [|].
Qed.

(** X3: in a state reached from an opened draft, the preview shows the
    profile and the entries of the draft, and for each slot it shows an
    image exactly when a save going through would store one; for a slot
    that is [initial] both are the stored image. *)
Theorem preview_agrees_with_save (s : Store.PortfolioState)
    (evs : list (Env * Event)) (env : Env) (data : Store.PartialState) :
  recordToSave env (store (run (mount s) evs)) (page (run (mount s) evs))
    = Ok data →
  ∃ pv images,
    previewData (handlePreview env (store (run (mount s) evs))
                   (page (run (mount s) evs))) = Some pv ∧
    Store.p_images data = Some images ∧
    Some (pv_profile pv) = Store.p_profile data ∧
    Some (pv_portfolios pv) = Store.p_portfolios data ∧
    ∀ k,
      (slot k (pv_images pv) = None ↔ slot k images = None) ∧
      (slot k (imageStatus (page (run (mount s) evs))) = initial →
       slot k (pv_images pv) = slot k images).
Proof.
  destruct (run_consistent evs (mount s) (mount_consistent s))
    as (Hp & _ & _ & _).
  set (a := run (mount s) evs) in *. intros Hrec.
  destruct (recordToSave_images env _ _ _ Hrec) as (images & -> & Him).
  destruct (handlePreview_images env (store a) (page a))
    as (pv & Hpv & Hprof & Hitems & Hurls).
  exists pv, images. rewrite Hprof, Hitems.
  split; [done |]. split; [done |]. split; [done |]. split; [done |].
  intros k. rewrite Hurls. specialize (Him k). specialize (Hp k).
  unfold previewUrlFor.
  destruct (slot k (files (page a))) as [f |] eqn:Hf.
  - destruct Him as (f' & url & _ & _ & ->).
    assert (slot k (imageStatus (page a)) = new) as -> by by apply Hp.
    rewrite bool_decide_eq_true_2 by done. by split.
  - rewrite Him.
    by destruct (bool_decide (slot k (imageStatus (page a)) = new)).
Qed.

Lemma preview_agrees_with_save_witness :
  ∃ pv images,
    previewData (handlePreview envOk (store (run (mount storeFilled) []))
                   (page (run (mount storeFilled) []))) = Some pv ∧
    Store.p_images (wholeRecord storeFilled) = Some images ∧
    Some (pv_profile pv) = Store.p_profile (wholeRecord storeFilled) ∧
    Some (pv_portfolios pv) = Store.p_portfolios (wholeRecord storeFilled) ∧
    ∀ k,
      (slot k (pv_images pv) = None ↔ slot k images = None) ∧
      (slot k (imageStatus (page (run (mount storeFilled) []))) = initial →
       slot k (pv_images pv) = slot k images).
Proof.
  apply (preview_agrees_with_save storeFilled [] envOk
           (wholeRecord storeFilled)).
  reflexivity.
Defined.

Lemma nonblank_truthy s : nonblank s → truthy s = true.
Proof. by intros [c s' Hc | c s' Hex]. Qed.

Lemma rendered_valid_profile st :
  rendered st → isFormValid st = true → profileFilled (profile st).
Proof.
  intros Hr Hv. rewrite <- Hr in Hv.
  apply isFormValid_validateForm in Hv as [Herr _].
  by apply formErrors_empty_iff in Herr as [Hp _].
Qed.

(** X12: after an event in a state reached from an opened draft has
    made the store call, the home page shows the name, the title and the
    description of the draft the save closed over, never the fallback
    texts; it shows the stored images, never the gradient or the
    placeholder avatar; and for a slot that was [initial] in that draft
    the image is the one of the store the draft was rendered on. *)
Theorem home_shows_saved_profile (s : Store.PortfolioState)
    (evs : list (Env * Event)) (env : Env) (ev : Event) :
  saved (step env (run (mount s) evs) ev).2 →
  ∃ p,
    closedOver (run (mount s) evs) ev = Some p ∧
    ProfileSection.heading
      (homeProfile (store (step env (run (mount s) evs) ev).1)) =
      name (profile (closedPage p)) ∧
    ProfileSection.subheading
      (homeProfile (store (step env (run (mount s) evs) ev).1)) =
      title (profile (closedPage p)) ∧
    ProfileSection.summary
      (homeProfile (store (step env (run (mount s) evs) ev).1)) =
      description (profile (closedPage p)) ∧
    (is_Some (ProfileSection.cover
                (homeProfile (store (step env (run (mount s) evs) ev).1))) ∧
     ProfileSection.cover
       (homeProfile (store (step env (run (mount s) evs) ev).1)) =
       s_background
         (Store.images (store (step env (run (mount s) evs) ev).1))) ∧
    Some (ProfileSection.avatar
            (homeProfile (store (step env (run (mount s) evs) ev).1))) =
      s_profile (Store.images (store (step env (run (mount s) evs) ev).1)) ∧
    (s_background (imageStatus (closedPage p)) = initial →
     ProfileSection.cover
       (homeProfile (store (step env (run (mount s) evs) ev).1)) =
       s_background (Store.images (closedStore p))) ∧
    (s_profile (imageStatus (closedPage p)) = initial →
     Some (ProfileSection.avatar
             (homeProfile (store (step env (run (mount s) evs) ev).1))) =
       s_profile (Store.images (closedStore p))).
Proof.
  pose proof (run_consistent evs (mount s) (mount_consistent s)) as Hcons.
  set (a := run (mount s) evs) in *. intros Hsaved.
  destruct (step_saved env a ev Hcons Hsaved)
    as (p & images & Hclosed & (Hv & Hr & _) & -> & Him).
  exists p. split; [done |].
  destruct (rendered_valid_profile _ Hr Hv) as (Hn & Ht & Hd).
  destruct (Him slot_background) as (ub & Hub & Hneb & Hinitb & _).
  destruct (Him slot_profile) as (up & Hup & Hnep & Hinitp & _).
  simpl in Hub, Hup, Hinitb, Hinitp.
  unfold homeProfile, ProfileSection.view, ProfileSection.orText. simpl.
  rewrite !nonblank_truthy by done. rewrite Hub, Hup.
  assert (truthy ub = true) as Hb by by destruct ub.
  assert (truthy up = true) as Hp by by destruct up.
  simpl. rewrite Hb, Hp.
  split; [done |]. split; [done |]. split; [done |].
  split; [by split |]. split; [done |].
  split; intros Hinit; symmetry; by auto.
Qed.

Lemma home_shows_saved_profile_witness :
  ∃ p,
    closedOver (run freshApp (take 3 firstSave)) (Settle 0) = Some p ∧
    ProfileSection.heading
      (homeProfile
         (store (step envOk (run freshApp (take 3 firstSave))
                   (Settle 0)).1)) =
      name (profile (closedPage p)).
Proof.
  destruct (home_shows_saved_profile (Store.hydrate None)
              (take 3 firstSave) envOk (Settle 0))
    as (p & Hclosed & Hheading & _).
  - eexists. vm_compute. apply list_elem_of_here.
  - by exists p.
Defined.

(** ** Removing an image, and a save that goes through *)

(** X8: pressing Remove in the box of a slot makes the slot [removed]
    with no pending file and no preview, leaves the store alone, and
    after the render the form is invalid and the Save button disabled,
    whatever the text fields hold; the only URL it can revoke is the
    preview it replaces, and only if that is a blob URL. *)
Theorem remove_image_blocks (env : Env) (a : App) (k : SlotId) :
  slot k (imageStatus (page (step env a (RemoveImage k)).1)) = removed ∧
  slot k (files (page (step env a (RemoveImage k)).1)) = None ∧
  FileUploadBox.previewUrl (slot k (boxes (step env a (RemoveImage k)).1))
    = None ∧
  store (step env a (RemoveImage k)).1 = store a ∧
  isFormValid (page (step env a (RemoveImage k)).1) = false ∧
  saveDisabled (page (step env a (RemoveImage k)).1) = true ∧
  ∀ eff, eff ∈ (step env a (RemoveImage k)).2 →
    ∃ url, eff = RevokeObjectURL url ∧
           FileUploadBox.previewUrl (slot k (boxes a)) = Some url ∧
           lit "blob:" `prefix_of` url.
Proof.
  unfold step. cbn [handle FileUploadBox.removeImage fst snd].
  assert (slot k (imageStatus (handleFileChange k None (page a))) = removed)
    as Hrem by apply handleFileChange_status.
  pose proof (validateForm_removed k _ Hrem) as Hinv.
  split; [exact Hrem |].
  split; [apply handleFileChange_files |].
  split.
  { rewrite render_boxes. cbn [store boxes].
    by rewrite syncInitial_same, slot_setSlot_eq. }
  split; [done |]. split; [exact Hinv |].
  split.
  { unfold saveDisabled. cbn [page render]. by rewrite Hinv. }
  intros eff Hin.
  destruct (FileUploadBox.previewUrl (slot k (boxes a))) as [url |];
    [| by apply elem_of_nil in Hin].
  destruct (truthy url) eqn:Ht; simpl in Hin;
    [| by apply elem_of_nil in Hin].
  case_bool_decide as Hblob; [| by apply elem_of_nil in Hin].
  apply list_elem_of_singleton in Hin. by exists url.
Qed.



(** X15: after an event in a state reached from an opened draft has
    made the store call, opening the draft again gives the profile and the
    entries the save closed over, no pending file, both slots [initial],
    and a valid form: what was saved can be saved again as it is. *)
Theorem reopen_after_save (s : Store.PortfolioState)
    (evs : list (Env * Event)) (env : Env) (ev : Event) :
  saved (step env (run (mount s) evs) ev).2 →
  ∃ p,
    closedOver (run (mount s) evs) ev = Some p ∧
    draft (mountPage (store (step env (run (mount s) evs) ev).1)) =
      (profile (closedPage p), portfolioItems (closedPage p),
       mkSlots None None, mkSlots initial initial) ∧
    isFormValid (mountPage (store (step env (run (mount s) evs) ev).1))
      = true.
Proof.
  pose proof (run_consistent evs (mount s) (mount_consistent s)) as Hcons.
  set (a := run (mount s) evs) in *. intros Hsaved.
  destruct (step_saved env a ev Hcons Hsaved)
    as (p & images & Hclosed & (Hv & Hr & _) & -> & Him).
  exists p. split; [done |].
  assert (∀ k, initialImageStatus (slot k images) = initial) as Hinit.
  { intros k. destruct (Him k) as (url & -> & Hne & _).
    apply initialImageStatus_initial. by exists url. }
  pose proof (Hinit slot_background) as Hb.
  pose proof (Hinit slot_profile) as Hpf. simpl in Hb, Hpf.
  split.
  - unfold draft. simpl. by rewrite Hb, Hpf.
  - apply isFormValid_validateForm. simpl. split.
    + rewrite <- Hr in Hv. by apply isFormValid_validateForm in Hv as [He _].
    + unfold noSlotRemoved. simpl. by rewrite Hb, Hpf.
Qed.

Lemma reopen_after_save_witness :
  ∃ p,
    closedOver (run freshApp (take 3 firstSave)) (Settle 0) = Some p ∧
    draft (mountPage
             (store (step envOk (run freshApp (take 3 firstSave))
                       (Settle 0)).1)) =
      (profile (closedPage p), portfolioItems (closedPage p),
       mkSlots None None, mkSlots initial initial) ∧
    isFormValid
      (mountPage
         (store (step envOk (run freshApp (take 3 firstSave))
                   (Settle 0)).1)) = true.
Proof.
  apply (reopen_after_save (Store.hydrate None) (take 3 firstSave) envOk
           (Settle 0)).
  eexists. vm_compute. apply list_elem_of_here.
Defined.

(** ** The checklist under the Save button *)



(** ** The ids of the entries *)

Lemma fmap_id_handlePortfolioChange i fld v st :
  id <$> portfolioItems (handlePortfolioChange i fld v st) =
  id <$> portfolioItems st.
Proof.
  simpl. rewrite <- list_fmap_compose. apply list_fmap_ext.
  intros n item _. simpl. case_bool_decide; [| done].
  apply setItemField_id.
Qed.

(** X14: when the ids of the entries are distinct, they stay distinct
    under an edit and under a removal, and under an addition if the time
    of the click is not yet an id of the list; an addition whose time is
    already an id goes through all the same, while there is room, and
    leaves two entries with that id. *)
Theorem ids_stay_unique (st : PageState) :
  NoDup (id <$> portfolioItems st) →
  (∀ i fld v,
     NoDup (id <$> portfolioItems (handlePortfolioChange i fld v st))) ∧
  (∀ i, NoDup (id <$> portfolioItems (removePortfolioItem i st))) ∧
  (∀ now, now ∉ id <$> portfolioItems st →
          NoDup (id <$> portfolioItems (addPortfolioItem now st).1)) ∧
  (∀ now, now ∈ id <$> portfolioItems st →
          (length (portfolioItems st) < 10)%nat →
          ¬ NoDup (id <$> portfolioItems (addPortfolioItem now st).1)).
Proof.
  intros Hnd. split; [| split; [| split]].
  - intros i fld v. by rewrite fmap_id_handlePortfolioChange.
  - intros i.
    assert (id <$> portfolioItems (removePortfolioItem i st)
              `sublist_of` id <$> portfolioItems st) as Hsub
      by (simpl; apply fmap_sublist, sublist_filter).
    by eapply sublist_NoDup.
  - intros now Hfresh. unfold addPortfolioItem.
    case_bool_decide; simpl; [done |].
    rewrite fmap_app. apply NoDup_app. split; [done |]. split.
    + intros i Hi Hin. apply list_elem_of_singleton in Hin. by subst.
    + apply NoDup_singleton.
  - intros now Hused Hroom. unfold addPortfolioItem.
    rewrite bool_decide_eq_false_2 by lia. simpl.
    rewrite fmap_app. intros (_ & Hdisj & _)%NoDup_app.
    apply (Hdisj now Hused). simpl. apply list_elem_of_here.
Qed.

Lemma ids_stay_unique_witness :
  NoDup
    (id <$> portfolioItems
       (addPortfolioItem 1751600000000 (mountPage Store.placeholderData)).1).
Proof.
  destruct (ids_stay_unique (mountPage Store.placeholderData))
    as (_ & _ & Hadd & _).
  - simpl. apply NoDup_singleton.
  - apply Hadd. simpl. intros Hin.
    apply list_elem_of_singleton in Hin. discriminate Hin.
Defined.

(** ** Typing into an entry, and the object URLs *)

Lemma fieldMissing_setItemField fld v item :
  fieldMissing fld (setItemField fld v item) = valueMissing fld v.
Proof. by destruct fld. Qed.

(** X17: after a value is typed into a field of the entries with a
    given id and the page has rendered, the error beside that field of
    such an entry is there exactly when the value fails the field's test
    (blank for position, company and description, empty for the two
    dates), also when several entries share the id. *)
Theorem entry_edit_error (env : Env) (a : App) (i : Z) (fld : ItemField)
    (v : jsstring) (item : PortfolioItem) :
  item ∈ portfolioItems (page a) → id item = i →
  itemFieldError fld item
    (errors (page (step env a (PortfolioChange i fld v)).1)) =
    if valueMissing fld v then Some (fieldMessage fld) else None.
Proof.
  intros Hin Hid. unfold step. cbn [handle fst page render].
  cbn [validateForm setIsFormValid setErrors errors].
  rewrite itemFieldError_key. unfold formErrors.
  rewrite lookup_foldl_itemErrors, lookup_profileErrors_item.
  cbn [handlePortfolioChange setPortfolioItems portfolioItems].
  unfold someMissing. rewrite Hid.
  destruct (valueMissing fld v) eqn:Hm.
  - rewrite bool_decide_eq_true_2; [done |].
    apply Exists_exists. exists (setItemField fld v item). split.
    + apply list_elem_of_fmap. exists item.
      by rewrite bool_decide_eq_true_2.
    + by rewrite setItemField_id, fieldMissing_setItemField.
  - rewrite bool_decide_eq_false_2; [done |].
    intros (item' & Hin' & Hid' & Hm')%Exists_exists.
    apply list_elem_of_fmap in Hin' as (item0 & -> & _).
    case_bool_decide as Hid0.
    + rewrite fieldMissing_setItemField in Hm'. congruence.
    + by rewrite Hid' in Hid0.
Qed.

Lemma entry_edit_error_witness :
  itemFieldError f_startDate (blankItem 7)
    (errors (page (step envOk
                     (mkApp Store.placeholderData draftFull
                        (mkSlots (FileUploadBox.init None)
                                 (FileUploadBox.init None)) [])
                     (PortfolioChange 7 f_startDate (lit " "))).1)) =
    if valueMissing f_startDate (lit " ")
    then Some (fieldMessage f_startDate) else None.
Proof.
  apply (entry_edit_error envOk
           (mkApp Store.placeholderData draftFull
              (mkSlots (FileUploadBox.init None) (FileUploadBox.init None))
              [])
           7 f_startDate (lit " ") (blankItem 7)).
  - simpl. do 6 apply list_elem_of_further. apply list_elem_of_here.
  - reflexivity.
Defined.

(** X16: the only handler that revokes an object URL is the Remove
    button of a box, and what it revokes is the blob URL the box was
    showing; in particular choosing another file over a pending one
    revokes nothing. *)
Theorem revoke_only_on_remove (env : Env) (a : App) (ev : Event)
    (url : jsstring) :
  RevokeObjectURL url ∈ (step env a ev).2 →
  ∃ k, ev = RemoveImage k ∧
       FileUploadBox.previewUrl (slot k (boxes a)) = Some url ∧
       lit "blob:" `prefix_of` url.
Proof.
  unfold step.
  destruct ev as [ | | now | | k file | k | | n | t]; simpl.
  - by intros ?%elem_of_nil.
  - by intros ?%elem_of_nil.
  - unfold addPortfolioItem. case_bool_decide; simpl.
    + intros Hin%list_elem_of_singleton. discriminate Hin.
    + by intros ?%elem_of_nil.
  - by intros ?%elem_of_nil.
  - destruct (decide (accepted file)) as [Hacc | Hrej].
    + rewrite handleFile_accepted by done. by intros ?%elem_of_nil.
    + destruct (handleFile_rejected handleFileChange env k file
                  (slot k (boxes a)) (page a) Hrej) as [msg ->]. simpl.
      intros Hin%list_elem_of_singleton. discriminate Hin.
  - destruct (FileUploadBox.previewUrl (slot k (boxes a))) as [url' |]
      eqn:Hprev; [| by intros ?%elem_of_nil].
    destruct (truthy url'); simpl; [| by intros ?%elem_of_nil].
    case_bool_decide as Hblob; [| by intros ?%elem_of_nil].
    intros [= <-]%list_elem_of_singleton. by exists k.
  - unfold clickSave.
    destruct (isFormValid (page a) && awaits (page a));
      [by intros ?%elem_of_nil |].
    destruct (isFormValid (page a)) eqn:Hv.
    + rewrite saveChanges_valid by done.
      destruct (recordToSave env (store a) (page a)); simpl; intros Hin;
        repeat (apply elem_of_cons in Hin as [Hin | Hin];
                [discriminate Hin |]);
        by apply elem_of_nil in Hin.
    + rewrite saveChanges_invalid by done. simpl.
      intros Hin%list_elem_of_singleton. discriminate Hin.
  - unfold settle.
    destruct (pending a !! n) as [p |]; [| by intros ?%elem_of_nil].
    destruct (recordToSave env (closedStore p) (closedPage p)); simpl;
      intros Hin;
      repeat (apply elem_of_cons in Hin as [Hin | Hin];
              [discriminate Hin |]);
      by apply elem_of_nil in Hin.
  - destruct t; simpl.
    + by intros ?%elem_of_nil.
    + intros Hin%list_elem_of_singleton. discriminate Hin.
    + by intros ?%elem_of_nil.
Qed.

Lemma revoke_only_on_remove_witness :
  ∃ k, RemoveImage slot_background = RemoveImage k ∧
       FileUploadBox.previewUrl
         (slot k (boxes (run (mount Store.placeholderData)
                           [(envOk, SelectFile slot_background pngFile)])))
         = Some (lit "blob:image/png") ∧
       lit "blob:" `prefix_of` lit "blob:image/png".
Proof.
  apply (revoke_only_on_remove envOk
           (run (mount Store.placeholderData)
              [(envOk, SelectFile slot_background pngFile)])
           (RemoveImage slot_background) (lit "blob:image/png")).
  vm_compute. apply list_elem_of_here.
Defined.

(** ** A save that is suspended, and the stores the application persists *)

(** A save that suspends and settles with no event in between does what
    [saveChanges] run in one go does. *)
Lemma settle_after_click env a :
  isFormValid (page a) = true → awaits (page a) = true →
  store (settle env (length (pending a)) (clickSave env a).1).1 =
    (saveChanges env (store a) (page a)).1.1 ∧
  page (settle env (length (pending a)) (clickSave env a).1).1 =
    (saveChanges env (store a) (page a)).1.2 ∧
  (settle env (length (pending a)) (clickSave env a).1).2 =
    (saveChanges env (store a) (page a)).2 ∧
  pending (settle env (length (pending a)) (clickSave env a).1).1 =
    pending a.
Proof.
  intros Hv Hw. unfold clickSave. rewrite Hv, Hw. simpl.
  unfold settle. simpl.
  rewrite lookup_app_r, Nat.sub_diag by done. simpl.
  rewrite saveChanges_valid by done.
  assert (delete (length (pending a))
            (pending a ++ [mkPending (store a) (page a) true]) = pending a)
    as Hdel.
  { rewrite delete_middle. apply app_nil_r. }
  destruct (recordToSave env (store a) (page a)); simpl; by rewrite Hdel.
Qed.

(** Remove pressed while a save with a pending background file is in
    flight: when the save settles, the box follows the stored image and
    shows a preview again, on a slot that stays [removed]. *)
Example remove_while_saving :
  slot slot_background
    (imageStatus
       (page (run freshApp
                (take 3 firstSave ++
                 [(envOk, RemoveImage slot_background);
                  (envOk, Settle 0)])))) = removed ∧
  FileUploadBox.previewUrl
    (slot slot_background
       (boxes (run freshApp
                 (take 3 firstSave ++
                  [(envOk, RemoveImage slot_background);
                   (envOk, Settle 0)])))) = Some (lit "data:image/png").
Proof. by vm_compute. Qed.

Lemma placeholder_storeOk : storeOk Store.placeholderData.
Proof.
  split; [| by intros [|]].
  apply formErrors_empty_iff. split.
  - unfold profileFilled, nonblank; simpl.
    repeat split; apply Exists_cons_hd; by vm_compute.
  - repeat constructor; simpl; try done;
      unfold nonblank; apply Exists_cons_hd; by vm_compute.
Qed.

Lemma step_storeOk env a ev :
  consistent a → storeOk (store a) → storeOk (store (step env a ev).1).
Proof.
  intros Hcons Hok.
  destruct (step_store_cases env a ev) as [[_ ->] | [Hsaved _]]; [done |].
  destruct (step_saved env a ev Hcons Hsaved)
    as (p & images & _ & (Hv & Hr & _) & -> & Him).
  split; simpl.
  - rewrite <- Hr in Hv. by apply isFormValid_validateForm in Hv as [He _].
  - intros k. destruct (Him k) as (url & -> & Hne & _). congruence.
Qed.

Lemma run_storeOk evs : ∀ a,
  consistent a → storeOk (store a) → storeOk (store (run a evs)).
Proof.
  induction evs as [|[env ev] evs IH]; intros a Hcons Hok; simpl; [done |].
  apply IH; [by apply step_consistent | by apply step_storeOk].
Qed.

Lemma persisted_storeOk s : persisted s → storeOk s.
Proof.
  intros [evs <-]. apply run_storeOk.
  - apply mount_consistent.
  - apply placeholder_storeOk.
Qed.

Example storeAfterFirstSave_images :
  Store.images storeAfterFirstSave =
    mkSlots (Some (lit "data:image/png")) (Some (lit "data:image/png")).
Proof. by vm_compute. Qed.

(** C4: for every record the application has persisted, a draft opened
    on it whose two slots open as [initial], saved without an edit,
    hands the store the record itself, field by field, with both images
    as they were stored, and leaves the store equal to the record; with no
    file pending the click runs the save through in its own turn. *)
Theorem save_unedited_roundtrip (env : Env) (s : Store.PortfolioState) :
  persisted s →
  imageStatus (mountPage s) = mkSlots initial initial →
  saveChanges env s (mountPage s) =
    (s,
     setIsSaving false
       (setNotification (mkToast true "Portfolio Saved!") (mountPage s)),
     [StoreSet (wholeRecord s); SetTimeout HideNotification 2000]) ∧
  store (step env (mount s) SaveChanges).1 = s ∧
  (step env (mount s) SaveChanges).2 =
    [StoreSet (wholeRecord s); SetTimeout HideNotification 2000] ∧
  pending (step env (mount s) SaveChanges).1 = [].
Proof.
  intros [Htext _]%persisted_storeOk Hinit.
  assert (isFormValid (mountPage s) = true) as Hv.
  { apply isFormValid_validateForm. split; [done |].
    assert (imageStatus (initPage s) = mkSlots initial initial) as Hi
      by exact Hinit.
    unfold noSlotRemoved. by rewrite Hi. }
  assert (saveChanges env s (mountPage s) =
            (s,
             setIsSaving false
               (setNotification (mkToast true "Portfolio Saved!")
                  (mountPage s)),
             [StoreSet (wholeRecord s); SetTimeout HideNotification 2000]))
    as Hsave.
  { rewrite saveChanges_valid by done.
    rewrite (recordToSave_untouched env s (mountPage s)) by done.
    by rewrite setPortfolioData_wholeRecord. }
  split; [exact Hsave |].
  unfold step. cbn [handle]. unfold clickSave.
  change (page (mount s)) with (mountPage s).
  change (store (mount s)) with s.
  assert (awaits (mountPage s) = false) as -> by reflexivity.
  rewrite andb_false_r, Hsave. by repeat split.
Qed.

Lemma save_unedited_roundtrip_witness :
  saveChanges envOk storeAfterFirstSave (mountPage storeAfterFirstSave) =
    (storeAfterFirstSave,
     setIsSaving false
       (setNotification (mkToast true "Portfolio Saved!")
          (mountPage storeAfterFirstSave)),
     [StoreSet (wholeRecord storeAfterFirstSave);
      SetTimeout HideNotification 2000]) ∧
  store (step envOk (mount storeAfterFirstSave) SaveChanges).1 =
    storeAfterFirstSave ∧
  (step envOk (mount storeAfterFirstSave) SaveChanges).2 =
    [StoreSet (wholeRecord storeAfterFirstSave);
     SetTimeout HideNotification 2000] ∧
  pending (step envOk (mount storeAfterFirstSave) SaveChanges).1 = [].
Proof.
  apply (save_unedited_roundtrip envOk storeAfterFirstSave).
  - exists firstSave. unfold storeAfterFirstSave. reflexivity.
  - by vm_compute.
Defined.

(** C10: for every record the application has persisted, a slot of the
    draft opened on it is [initial] exactly when the record holds a
    non-null image for it and [removed] exactly when it holds null; a slot
    that opens on null is [removed], and as long as no file that its box
    accepts is chosen for it the slot stays [removed], the form stays
    invalid, and a click on Save only raises the validation alert and
    writes nothing. *)
Theorem open_status (s : Store.PortfolioState) (k : SlotId) :
  persisted s →
  (slot k (imageStatus (page (mount s))) = initial ↔
     slot k (Store.images s) ≠ None) ∧
  (slot k (imageStatus (page (mount s))) = removed ↔
     slot k (Store.images s) = None) ∧
  (slot k (Store.images s) = None →
   ∀ evs, Forall (fun ee => suppliesFile k ee.2 = false) evs →
     slot k (imageStatus (page (run (mount s) evs))) = removed ∧
     isFormValid (page (run (mount s) evs)) = false ∧
     ∀ env,
       saveChanges env (store (run (mount s) evs)) (page (run (mount s) evs))
       = (store (run (mount s) evs), page (run (mount s) evs),
          validationAlert) ∧
       (step env (run (mount s) evs) SaveChanges).2 = validationAlert ∧
       store (step env (run (mount s) evs) SaveChanges).1 =
         store (run (mount s) evs)).
Proof.
  intros [_ Himages]%persisted_storeOk. specialize (Himages k).
  destruct (mount_status s k) as [Hinit Hrem].
  split; [| split].
  - rewrite Hinit. split.
    + by intros (url & -> & _).
    + destruct (slot k (Store.images s)) as [url |]; [| done].
      intros _. exists url. split; [done |]. intros ->. by destruct Himages.
  - rewrite Hrem. split; [| by left]. by intros [Hnone | Hempty].
  - intros Hnone evs Hevs.
    assert (truthy_opt (slot k (Store.images s)) = false) as Hfalsy
      by by rewrite Hnone.
    destruct (run_blocked k evs (mount s) Hevs (mount_blocked s k Hfalsy))
      as (_ & Hr & Hv & _).
    split; [done |]. split; [done |]. intros env.
    split; [by apply saveChanges_invalid |].
    unfold step. cbn [handle]. by rewrite clickSave_invalid.
Qed.

Lemma open_status_witness :
  (slot slot_background (imageStatus (page (mount storeAfterFirstSave)))
     = initial ↔
   slot slot_background (Store.images storeAfterFirstSave) ≠ None) ∧
  (slot slot_profile (imageStatus (page (mount Store.placeholderData)))
     = removed ↔
   slot slot_profile (Store.images Store.placeholderData) = None).
Proof.
  split.
  - apply (open_status storeAfterFirstSave slot_background).
    exists firstSave. unfold storeAfterFirstSave. reflexivity.
  - apply (open_status Store.placeholderData slot_profile).
    exists []. reflexivity.
Defined.
